(** * Bulk create / update / destroy mixins (rest_framework_bulk/drf3/mixins.py)

    A shallow embedding of the three mixin classes
    [BulkCreateModelMixin], [BulkUpdateModelMixin] and
    [BulkDestroyModelMixin].  The mixins are orchestration code over Django
    and Django REST framework: the first half of this file is a small
    executable model of the framework primitives they call (request data,
    querysets, serializers, exceptions), the second half is the mixin code
    itself, followed by the properties established about it. *)

From Stdlib Require Import List String ZArith Bool Arith Lia.
Import ListNotations.
Local Open Scope string_scope.
Local Open Scope list_scope.
Set Warnings "-register-all".

(** ** Request data: parsed JSON values *)

Inductive json : Type :=
| JNull
| JBool (b : bool)
| JNum (n : Z)
| JStr (s : string)
| JList (l : list json)
| JDict (d : list (string * json)).

(** A Python [dict] with string keys, in insertion order. *)
Definition dict := list (string * json).

Fixpoint dict_get (d : dict) (k : string) : option json :=
  match d with
  | [] => None
  | (k', x) :: d' => if String.eqb k' k then Some x else dict_get d' k
  end.

(** [k in d] *)
Definition dict_mem {A : Type} (d : list (string * A)) (k : string) : bool :=
  existsb (fun kv => String.eqb (fst kv) k) d.

(** [d.pop(k, default)] as far as its value goes; the dict is a local copy. *)
Definition dict_pop (d : dict) (k : string) (default : json) : json :=
  match dict_get d k with
  | Some x => x
  | None => default
  end.

(** Python truthiness of a parsed value. *)
Definition truthy (x : json) : bool :=
  match x with
  | JNull => false
  | JBool b => b
  | JNum n => negb (Z.eqb n 0)
  | JStr s => negb (String.eqb s EmptyString)
  | JList l => match l with [] => false | _ => true end
  | JDict d => match d with [] => false | _ => true end
  end.

(** [isinstance(x, list)] *)
Definition is_list (x : json) : bool :=
  match x with
  | JList _ => true
  | _ => false
  end.

(** The error mapping of one serializer: field name to messages. *)
Definition errors := list (string * list string).

(** The [detail] of a REST framework validation error. *)
Inductive error_detail : Type :=
| DetailOne (e : errors)
| DetailMany (l : list errors)
| DetailMessage (m : string).

(** ** Exceptions *)

Inductive exn : Type :=
| Http404
| KeyError (k : string)
| TypeError
| ValueError
| AssertionError
| MultipleObjectsReturned
| ValidationError (messages : list errors)
    (* django.core.exceptions.ValidationError, the one mixins.py imports *)
| APIValidationError (detail : error_detail)
    (* rest_framework.exceptions.ValidationError, raised by is_valid *)
| OtherError (m : string).

Inductive result (A : Type) : Type :=
| Return (a : A)
| Raise (e : exn).
Arguments Return {A} a.
Arguments Raise {A} e.

(** ** Persisted records and querysets *)

Record Obj : Type := mkObj { pk : Z; attrs : dict }.

(** The table behind the view's model. *)
Definition Store := list Obj.

(** A queryset is a lazy query; [qs_ident] is the identity of the Python
    object, which is all that [is] compares. *)
Record QuerySet : Type := mkQuerySet { qs_ident : nat; qs_where : Obj -> bool }.

Definition qs_eval (q : QuerySet) (db : Store) : list Obj :=
  filter (qs_where q) db.

(** A plain row delete: the rows with this primary key go, nothing else
    changes.  It is what [Model.delete()] does on a model that nothing
    protects and nothing depends on; what it does in general is the view's
    [instance_delete]. *)
Definition delete (o : Obj) (db : Store) : Store :=
  filter (fun o' => negb (Z.eqb (pk o') (pk o))) db.

(** ** The world: the table, and the calls made to the framework *)

Inductive call : Type :=
| CGetObjectOr404 (ident : json)
| CIsValid (initial_data : json)
| CSave
| CDelete (o : Obj)
| CSuperGetObject.

Record World : Type := mkWorld { db : Store; trace : list call }.

Definition log (c : call) (w : World) : World :=
  mkWorld (db w) (trace w ++ [c]).

(** ** A state and exception monad.  The world survives a raise: Python
    rolls nothing back. *)

Definition M (A : Type) : Type := World -> result A * World.

Definition ret {A : Type} (a : A) : M A := fun w => (Return a, w).

Definition raise {A : Type} (e : exn) : M A := fun w => (Raise e, w).

Definition bind {A B : Type} (m : M A) (k : A -> M B) : M B :=
  fun w =>
    match m w with
    | (Return a, w') => k a w'
    | (Raise e, w') => (Raise e, w')
    end.

Definition lift {A : Type} (r : result A) : M A := fun w => (r, w).

Definition tell (c : call) : M unit := fun w => (Return tt, log c w).

Declare Scope py_scope.
Delimit Scope py_scope with py.
Notation "x <- m ;; k" := (bind m (fun x => k))
  (at level 100, m at next level, right associativity) : py_scope.
Notation "' p <- m ;; k" := (bind m (fun x => match x with p => k end))
  (at level 100, p pattern, m at next level, right associativity) : py_scope.
Notation "m ;;; k" := (bind m (fun _ => k))
  (at level 100, right associativity) : py_scope.
Local Open Scope py_scope.

(** ** Python operations on request data *)

(** [for item in x]: the items a value yields, or the [TypeError] of a
    value that is not iterable. *)
Fixpoint chars (s : string) : list json :=
  match s with
  | EmptyString => []
  | String c s' => JStr (String c EmptyString) :: chars s'
  end.

Definition py_iter (x : json) : result (list json) :=
  match x with
  | JList l => Return l
  | JDict d => Return (map (fun kv => JStr (fst kv)) d)
  | JStr s => Return (chars s)
  | _ => Raise TypeError
  end.

(** [item[key]] for a string key. *)
Definition py_getitem (item : json) (key : string) : result json :=
  match item with
  | JDict d =>
      match dict_get d key with
      | Some x => Return x
      | None => Raise (KeyError key)
      end
  | _ => Raise TypeError
  end.

(** ** Responses *)

Record Response : Type :=
  mkResponse { body : option json; status : Z; headers : list (string * string) }.

Definition HTTP_200_OK : Z := 200.
Definition HTTP_201_CREATED : Z := 201.
Definition HTTP_204_NO_CONTENT : Z := 204.
Definition HTTP_400_BAD_REQUEST : Z := 400.

Record Request : Type := mkRequest { data : json }.

(** ** The view: what the class that mixes the mixins in supplies *)

(** The outcome of [run_validation] of the item serializer: the validated
    data, or the detail of the validation error it raised. *)
Inductive validation : Type :=
| Valid (validated : dict)
| Invalid (detail : errors).

(** The [instance] of a list serializer: a queryset not yet evaluated, or
    the objects a save returned. *)
Inductive instances : Type :=
| Lazy (q : QuerySet)
| Fetched (l : list Obj).

Record View : Type := mkView {
  (* GenericAPIView *)
  get_queryset : QuerySet;
  filter_queryset : QuerySet -> QuerySet;
  lookup_field : string;
  lookup_url_kwarg : option string;
  kwargs : list (string * string);
  super_get_object : Store -> result Obj;
  get_success_headers : json -> list (string * string);
  (* the model's primary key field: conversion of a lookup value, None
     when the value is not one the field accepts *)
  pk_to_python : json -> option Z;
  (* Model.delete() on an instance of the view's model: it may raise (a
     protected object, a database error), and what it does to the table,
     cascades included, is the model's business *)
  instance_delete : Obj -> Store -> result unit * Store;
  (* the serializer class *)
  run_validation : Store -> option Obj -> json -> bool -> validation;
  serializer_create : dict -> Store -> result Obj * Store;
  serializer_update : Obj -> dict -> Store -> result Obj * Store;
  list_serializer_update : instances -> list dict -> Store -> result (list Obj) * Store;
  to_representation : Obj -> json
}.

(** ** Serializers *)

(** A serializer object for one item.  [_validated_data] and [_errors] are
    the attributes [is_valid] sets; [None] is an attribute not yet set. *)
Record Serializer : Type := mkSerializer {
  instance : option Obj;
  initial_data : json;
  partial : bool;
  _validated_data : option dict;
  _errors : option errors
}.

(** A serializer object made with [many=True]. *)
Record ListSerializer : Type := mkListSerializer {
  l_instance : option instances;
  l_initial_data : json;
  l_partial : bool;
  l_validated_data : option (list dict);
  l_errors : option error_detail
}.

(** What the mixins use of a serializer, whichever kind it is.  A method
    that mutates the serializer object returns the mutated object. *)
Class BaseSerializer (S : Type) : Type := {
  is_valid : S -> bool -> M (bool * S);
  save : S -> M S;
  serializer_data : S -> M json
}.

(** [[f(x) for x in l]] for a call that may raise. *)
Fixpoint for_each {A B : Type} (f : A -> M B) (l : list A) : M (list B) :=
  match l with
  | [] => ret []
  | x :: l' => y <- f x ;; ys <- for_each f l' ;; ret (y :: ys)
  end.

Definition nonempty {A : Type} (l : list A) : bool :=
  match l with
  | [] => false
  | _ :: _ => true
  end.

Section Mixins.

(** [self]: the view the mixins are mixed into. *)
Variable view : View.

Definition lift_store {A : Type} (f : Store -> result A * Store) : M A :=
  fun w => let '(r, db') := f (db w) in (r, mkWorld db' (trace w)).

(** [django.shortcuts.get_object_or_404(queryset, pk=ident)]: the one
    object of the queryset with this primary key; [DoesNotExist] becomes
    [Http404], anything else the lookup raises propagates. *)
Definition get_object_or_404 (queryset : QuerySet) (ident : json) : M Obj :=
  tell (CGetObjectOr404 ident) ;;;
  fun w =>
    match pk_to_python view ident with
    | None => (Raise ValueError, w)
    | Some k =>
        match filter (fun o => Z.eqb (pk o) k) (qs_eval queryset (db w)) with
        | [] => (Raise Http404, w)
        | [o] => (Return o, w)
        | _ :: _ :: _ => (Raise MultipleObjectsReturned, w)
        end
    end.

(** [self.get_serializer(instance, data=..., partial=...)] *)
Definition get_serializer (inst : option Obj) (data : json) (partial : bool)
  : Serializer :=
  mkSerializer inst data partial None None.

(** [self.get_serializer(instance, data=..., many=True, partial=...)] *)
Definition get_serializer_many (inst : option instances) (data : json)
  (partial : bool) : ListSerializer :=
  mkListSerializer inst data partial None None.

(** [Serializer.is_valid(raise_exception)]: runs the validation once,
    keeps its outcome on the serializer, and answers whether there were no
    errors; it raises only when asked to. *)
Definition Serializer_is_valid (s : Serializer) (raise_exception : bool)
  : M (bool * Serializer) :=
  tell (CIsValid (initial_data s)) ;;;
  fun w =>
    let s' :=
      match _validated_data s with
      | Some _ => s
      | None =>
          match run_validation view (db w) (instance s) (initial_data s) (partial s) with
          | Valid d =>
              mkSerializer (instance s) (initial_data s) (partial s) (Some d) (Some [])
          | Invalid e =>
              mkSerializer (instance s) (initial_data s) (partial s) (Some []) (Some e)
          end
      end in
    match _errors s' with
    | None => (Raise (OtherError "AttributeError"), w)
    | Some e =>
        if nonempty e && raise_exception
        then (Raise (APIValidationError (DetailOne e)), w)
        else (Return (negb (nonempty e), s'), w)
    end.

(** [Serializer.save()] *)
Definition Serializer_save (s : Serializer) : M Serializer :=
  tell CSave ;;;
  match _errors s, _validated_data s with
  | Some [], Some d =>
      fun w =>
        let '(r, db') :=
          match instance s with
          | Some o => serializer_update view o d (db w)
          | None => serializer_create view d (db w)
          end in
        match r with
        | Return o =>
            (Return (mkSerializer (Some o) (initial_data s) (partial s)
                       (_validated_data s) (_errors s)),
             mkWorld db' (trace w))
        | Raise e => (Raise e, mkWorld db' (trace w))
        end
  | _, _ => raise AssertionError
  end.

(** [Serializer.data] *)
Definition Serializer_data (s : Serializer) : M json :=
  match _validated_data s with
  | None => raise AssertionError
  | Some d =>
      match instance s, _errors s with
      | Some o, None | Some o, Some [] => ret (to_representation view o)
      | None, None | None, Some [] => ret (JDict d)
      | _, Some (_ :: _) => ret (initial_data s)
      end
  end.

#[export] Instance Serializer_BaseSerializer : BaseSerializer Serializer := {
  is_valid := Serializer_is_valid;
  save := Serializer_save;
  serializer_data := Serializer_data
}.

(** [ListSerializer.to_internal_value]: every item goes through the
    child serializer (with no instance); the error list has one entry per
    item, empty for an item that passed. *)
Definition item_errors (o : validation) : errors :=
  match o with
  | Valid _ => []
  | Invalid e => e
  end.

Definition item_validated (o : validation) : list dict :=
  match o with
  | Valid d => [d]
  | Invalid _ => []
  end.

Definition ListSerializer_to_internal_value (st : Store) (partial : bool)
  (data : json) : error_detail + list dict :=
  match data with
  | JList items =>
      let outcomes := map (fun item => run_validation view st None item partial) items in
      let errs := map item_errors outcomes in
      if existsb nonempty errs then inl (DetailMany errs)
      else inr (flat_map item_validated outcomes)
  | _ => inl (DetailOne [("non_field_errors", ["Expected a list of items."])])
  end.

Definition detail_truthy (e : error_detail) : bool :=
  match e with
  | DetailOne e => nonempty e
  | DetailMany l => nonempty l
  | DetailMessage m => negb (String.eqb m EmptyString)
  end.

(** [ListSerializer.is_valid(raise_exception)] *)
Definition ListSerializer_is_valid (s : ListSerializer) (raise_exception : bool)
  : M (bool * ListSerializer) :=
  tell (CIsValid (l_initial_data s)) ;;;
  fun w =>
    let s' :=
      match l_validated_data s with
      | Some _ => s
      | None =>
          match ListSerializer_to_internal_value (db w) (l_partial s) (l_initial_data s) with
          | inr ds =>
              mkListSerializer (l_instance s) (l_initial_data s) (l_partial s)
                (Some ds) (Some (DetailMany []))
          | inl e =>
              mkListSerializer (l_instance s) (l_initial_data s) (l_partial s)
                (Some []) (Some e)
          end
      end in
    match l_errors s' with
    | None => (Raise (OtherError "AttributeError"), w)
    | Some e =>
        if detail_truthy e && raise_exception
        then (Raise (APIValidationError e), w)
        else (Return (negb (detail_truthy e), s'), w)
    end.

(** [ListSerializer.save()]: an update of the instance when there is one,
    else one create per validated item.  It asks for [validated_data]
    only, never for [is_valid]. *)
Definition ListSerializer_save (s : ListSerializer) : M ListSerializer :=
  tell CSave ;;;
  match l_validated_data s with
  | None => raise AssertionError
  | Some ds =>
      objs <- match l_instance s with
              | Some inst => lift_store (list_serializer_update view inst ds)
              | None => for_each (fun d => lift_store (serializer_create view d)) ds
              end ;;
      ret (mkListSerializer (Some (Fetched objs)) (l_initial_data s) (l_partial s)
             (l_validated_data s) (l_errors s))
  end.

(** [ListSerializer.data] *)
Definition ListSerializer_data (s : ListSerializer) : M json :=
  match l_validated_data s with
  | None => raise AssertionError
  | Some ds =>
      if match l_errors s with Some e => detail_truthy e | None => false end
      then ret (l_initial_data s)
      else
        match l_instance s with
        | Some (Lazy q) =>
            fun w => (Return (JList (map (to_representation view) (qs_eval q (db w)))), w)
        | Some (Fetched l) => ret (JList (map (to_representation view) l))
        | None => ret (JList (map JDict ds))
        end
  end.

#[export] Instance ListSerializer_BaseSerializer : BaseSerializer ListSerializer := {
  is_valid := ListSerializer_is_valid;
  save := ListSerializer_save;
  serializer_data := ListSerializer_data
}.

(** [rest_framework.mixins.CreateModelMixin]: the single-object create
    that [BulkCreateModelMixin] extends. *)
Definition perform_create {S : Type} `{BaseSerializer S} (serializer : S) : M S :=
  save serializer.

Definition CreateModelMixin_create (request : Request) : M Response :=
  let serializer := get_serializer None (data request) false in
  '(_, serializer) <- is_valid serializer true ;;
  serializer <- perform_create serializer ;;
  d <- serializer_data serializer ;;
  ret (mkResponse (Some d) HTTP_201_CREATED (get_success_headers view d)).

(** [rest_framework.generics.GenericAPIView.get_object] *)
Definition GenericAPIView_get_object : M Obj :=
  tell CSuperGetObject ;;;
  fun w => (super_get_object view (db w), w).

(** ** class BulkCreateModelMixin(CreateModelMixin) *)

Definition perform_bulk_create {S : Type} `{BaseSerializer S} (serializer : S) : M S :=
  perform_create serializer.

Definition create (request : Request) : M Response :=
  let bulk := is_list (data request) in
  if negb bulk then
    CreateModelMixin_create request
  else
    let serializer := get_serializer_many None (data request) false in
    '(_, serializer) <- is_valid serializer true ;;
    serializer <- perform_bulk_create serializer ;;
    d <- serializer_data serializer ;;
    ret (mkResponse (Some d) HTTP_201_CREATED []).

(** ** class BulkUpdateModelMixin(object) *)

(** [a or b] on the two lookup attributes. *)
Definition py_or (a : option string) (b : string) : string :=
  match a with
  | Some s => if String.eqb s EmptyString then b else s
  | None => b
  end.

Definition get_object : M (option Obj) :=
  let lookup_url_kwarg := py_or (lookup_url_kwarg view) (lookup_field view) in
  if dict_mem (kwargs view) lookup_url_kwarg then
    o <- GenericAPIView_get_object ;; ret (Some o)
  else
    ret None.

Definition perform_update {S : Type} `{BaseSerializer S} (serializer : S) : M S :=
  save serializer.

Definition perform_bulk_update {S : Type} `{BaseSerializer S} (serializer : S) : M S :=
  perform_update serializer.

(** The body of [for item in request.data], with the two accumulators. *)
Fixpoint bulk_update_loop (partial : bool) (items : list json)
  (validated_data : list dict) (validation_errors : list errors)
  : M (list dict * list errors) :=
  match items with
  | [] => ret (validated_data, validation_errors)
  | item :: rest =>
      let queryset := filter_queryset view (get_queryset view) in
      ident <- lift (py_getitem item "id") ;;
      obj <- get_object_or_404 queryset ident ;;
      let item_serializer := get_serializer (Some obj) item partial in
      '(ok, item_serializer) <- is_valid item_serializer false ;;
      validation_errors <-
        (if negb ok then
           match _errors item_serializer with
           | Some e => ret (validation_errors ++ [e])
           | None => raise AssertionError
           end
         else ret validation_errors) ;;
      match _validated_data item_serializer with
      | Some d => bulk_update_loop partial rest (validated_data ++ [d]) validation_errors
      | None => raise AssertionError
      end
  end.

Definition bulk_update (request : Request) (kwargs : dict) : M Response :=
  let partial := truthy (dict_pop kwargs "partial" (JBool false)) in
  let serializer :=
    get_serializer_many
      (Some (Lazy (filter_queryset view (get_queryset view))))
      (data request) partial in
  items <- lift (py_iter (data request)) ;;
  '(validated_data, validation_errors) <- bulk_update_loop partial items [] [] ;;
  if nonempty validation_errors then
    raise (ValidationError validation_errors)
  else
    let serializer :=
      mkListSerializer (l_instance serializer) (l_initial_data serializer)
        (l_partial serializer) (Some validated_data) (l_errors serializer) in
    serializer <- perform_bulk_update serializer ;;
    d <- serializer_data serializer ;;
    ret (mkResponse (Some d) HTTP_200_OK []).

Definition partial_bulk_update (request : Request) (kwargs : dict) : M Response :=
  bulk_update request (("partial", JBool true) :: kwargs).

(** ** class BulkDestroyModelMixin(object) *)

Definition allow_bulk_destroy (qs filtered : QuerySet) : bool :=
  negb (Nat.eqb (qs_ident qs) (qs_ident filtered)).

Definition perform_destroy (instance : Obj) : M unit :=
  tell (CDelete instance) ;;;
  lift_store (instance_delete view instance).

Fixpoint destroy_each (objs : list Obj) : M unit :=
  match objs with
  | [] => ret tt
  | obj :: rest => perform_destroy obj ;;; destroy_each rest
  end.

(** [for obj in objects]: the queryset is evaluated when the loop starts. *)
Definition perform_bulk_destroy (objects : QuerySet) : M unit :=
  fun w => destroy_each (qs_eval objects (db w)) w.

Definition bulk_destroy (request : Request) : M Response :=
  let qs := get_queryset view in
  let filtered := filter_queryset view qs in
  if negb (allow_bulk_destroy qs filtered) then
    ret (mkResponse None HTTP_400_BAD_REQUEST [])
  else
    perform_bulk_destroy filtered ;;;
    ret (mkResponse None HTTP_204_NO_CONTENT []).

End Mixins.

(** ** A concrete view, for running the mixins *)

Module Demo.

Definition blank : errors := [("name", ["This field may not be blank."])].
Definition required : errors := [("name", ["This field is required."])].
Definition invalid : errors := [("non_field_errors", ["Invalid data."])].

(** A serializer with one required, non-blank string field [name]. *)
Definition validate (st : Store) (inst : option Obj) (item : json)
  (partial : bool) : validation :=
  match item with
  | JDict d =>
      match dict_get d "name" with
      | Some (JStr s) =>
          if String.eqb s EmptyString then Invalid blank else Valid [("name", JStr s)]
      | Some _ => Invalid invalid
      | None => if partial then Valid [] else Invalid required
      end
  | _ => Invalid invalid
  end.

Definition next_pk (st : Store) : Z :=
  fold_right (fun o m => Z.max (pk o + 1) m) 1%Z st.

Definition create_row (d : dict) (st : Store) : result Obj * Store :=
  let o := mkObj (next_pk st) d in (Return o, st ++ [o]).

Definition update_row (o : Obj) (d : dict) (st : Store)
  : result Obj * Store :=
  let o' := mkObj (pk o) d in
  (Return o', map (fun x => if Z.eqb (pk x) (pk o) then o' else x) st).

Definition update_rows (inst : instances) (ds : list dict)
  (st : Store) : result (list Obj) * Store :=
  let objs := match inst with Lazy q => qs_eval q st | Fetched l => l end in
  let updated := map (fun od => mkObj (pk (fst od)) (snd od)) (combine objs ds) in
  (Return updated,
   map (fun x =>
          match find (fun o => Z.eqb (pk o) (pk x)) updated with
          | Some o => o
          | None => x
          end) st).

Definition to_pk (x : json) : option Z :=
  match x with
  | JNum n => Some n
  | _ => None
  end.

Definition represent (o : Obj) : json :=
  JDict (("id", JNum (pk o)) :: attrs o).

Definition first_object (st : Store) : result Obj :=
  match st with
  | o :: _ => Return o
  | [] => Raise Http404
  end.

(** A model nothing protects: deleting an instance removes its row. *)
Definition delete_row (o : Obj) (st : Store) : result unit * Store :=
  (Return tt, delete o st).


(** A view over these, given what deleting an instance does, its filter
    backend and its resolved URL arguments. *)
Definition make_with (del : Obj -> Store -> result unit * Store)
  (filter : QuerySet -> QuerySet) (kws : list (string * string))
  : View := {|
  get_queryset := mkQuerySet 0 (fun _ => true);
  filter_queryset := filter;
  lookup_field := "pk";
  lookup_url_kwarg := None;
  kwargs := kws;
  super_get_object := first_object;
  get_success_headers := fun _ => [];
  pk_to_python := to_pk;
  instance_delete := del;
  run_validation := validate;
  serializer_create := create_row;
  serializer_update := update_row;
  list_serializer_update := update_rows;
  to_representation := represent
|}.

Definition make (filter : QuerySet -> QuerySet) (kws : list (string * string))
  : View := make_with delete_row filter kws.

(** The filter backend narrows the queryset to primary keys up to 2 and,
    as a filter does, returns a new queryset. *)
Definition narrow (q : QuerySet) : QuerySet :=
  mkQuerySet (S (qs_ident q)) (fun o => qs_where q o && Z.leb (pk o) 2).

(** A filter that matches every record, and still returns a new queryset
    object. *)
Definition match_all (q : QuerySet) : QuerySet :=
  mkQuerySet (S (qs_ident q)) (qs_where q).

Definition view : View := make narrow [].

(** No filter backend: [filter_queryset] hands back the queryset it was
    given. *)
Definition unfiltered_view : View := make (fun q => q) [].

Definition match_all_view : View := make match_all [].

(** A detail route: the identifier is among the resolved URL arguments. *)
Definition detail_view : View := make narrow [("pk", "1")].


Definition row (k : Z) (name : string) : Obj := mkObj k [("name", JStr name)].

Definition table : Store := [row 1 "ann"; row 2 "bob"; row 3 "cyd"].

Definition world : World := mkWorld table [].

Definition item (k : Z) (name : string) : json :=
  JDict [("id", JNum k); ("name", JStr name)].

Definition no_id (name : string) : json := JDict [("name", JStr name)].

End Demo.

(** ** Notions the properties are stated with *)

Section Notions.

Variable view : View.

(** The [partial] flag [bulk_update] pops from its keyword arguments. *)
Definition partial_of (kwargs : dict) : bool :=
  truthy (dict_pop kwargs "partial" (JBool false)).

(** The lookup the loop of [bulk_update] makes for an item: read its
    identifier, fetch the object from the filtered queryset. *)
Definition lookup_item (item : json) : M Obj :=
  ident <- lift (py_getitem item "id") ;;
  get_object_or_404 view (filter_queryset view (get_queryset view)) ident.

(** The lookup followed by the validity check of the item serializer. *)
Definition validate_item (partial : bool) (item : json) : M (bool * Serializer) :=
  obj <- lookup_item item ;;
  Serializer_is_valid view (get_serializer (Some obj) item partial) false.

Definition lookup_succeeds (w : World) (item : json) : Prop :=
  exists obj, fst (lookup_item item w) = Return obj.

(** The item is looked up and its validity check answers [False]. *)
Definition fails_validation (w : World) (partial : bool) (item : json) : bool :=
  match fst (validate_item partial item w) with
  | Return (false, _) => true
  | _ => false
  end.

(** The error set an item contributes when its validity check fails. *)
Definition failure_errors (w : World) (partial : bool) (item : json) : list errors :=
  match fst (validate_item partial item w) with
  | Return (false, s) =>
      match _errors s with
      | Some e => [e]
      | None => []
      end
  | _ => []
  end.

(** The calls a successful lookup and check of an item leave in the trace. *)
Definition item_calls (item : json) : list call :=
  match py_getitem item "id" with
  | Return ident => [CGetObjectOr404 ident; CIsValid item]
  | Raise _ => []
  end.

(** The outcome of the validity check of an item against its object. *)
Definition checked (st : Store) (partial : bool) (obj : Obj) (item : json)
  : bool * Serializer :=
  match run_validation view st (Some obj) item partial with
  | Valid d => (true, mkSerializer (Some obj) item partial (Some d) (Some []))
  | Invalid e =>
      (negb (nonempty e), mkSerializer (Some obj) item partial (Some []) (Some e))
  end.

(** What the valid and the failing items add to the two accumulators. *)
Definition checked_data (c : bool * Serializer) : list dict :=
  match _validated_data (snd c) with
  | Some d => [d]
  | None => []
  end.

Definition checked_errors (c : bool * Serializer) : list errors :=
  if fst c then []
  else match _errors (snd c) with
       | Some e => [e]
       | None => []
       end.

Definition item_data (w : World) (partial : bool) (item : json) : list dict :=
  match fst (validate_item partial item w) with
  | Return c => checked_data c
  | Raise _ => []
  end.

(** An item fails the collection-mode validation of the create path. *)
Definition collection_item_fails (st : Store) (item : json) : bool :=
  nonempty (item_errors (run_validation view st None item false)).

(** The same view with other lookup attributes. *)
Definition with_lookup (field : string) (url_kwarg : option string) : View := {|
  get_queryset := get_queryset view;
  filter_queryset := filter_queryset view;
  lookup_field := field;
  lookup_url_kwarg := url_kwarg;
  kwargs := kwargs view;
  super_get_object := super_get_object view;
  get_success_headers := get_success_headers view;
  pk_to_python := pk_to_python view;
  instance_delete := instance_delete view;
  run_validation := run_validation view;
  serializer_create := serializer_create view;
  serializer_update := serializer_update view;
  list_serializer_update := list_serializer_update view;
  to_representation := to_representation view
|}.

End Notions.

(** The items whose validity check was run, in call order. *)
Definition is_valid_calls (t : list call) : list json :=
  flat_map (fun c => match c with CIsValid d => [d] | _ => [] end) t.

(** An error sequence in positional correspondence with the batch: one
    entry per item, empty at every item that is valid. *)
Definition positional_errors (items : list json) (valid : json -> bool)
  (payload : list errors) : Prop :=
  List.length payload = List.length items /\
  forall i item, nth_error items i = Some item -> valid item = true ->
                 nth_error payload i = Some [].

(** A call that only reads: a lookup or a validity check. *)
Definition read_call (c : call) : bool :=
  match c with
  | CGetObjectOr404 _ | CIsValid _ => true
  | _ => false
  end.

(** A value that is not a mapping. *)
Definition is_dict (x : json) : bool :=
  match x with
  | JDict _ => true
  | _ => false
  end.

(** The single-object create path, as the standard mixin provides it. *)
Definition standard_single_create (view : View) (request : Request) : M Response :=
  CreateModelMixin_create view request.

Example bulk_update_all_valid :
  bulk_update Demo.view (mkRequest (JList [Demo.item 1 "al"; Demo.item 2 "bo"])) [] Demo.world
  = (Return (mkResponse
               (Some (JList [Demo.represent (Demo.row 1 "al");
                             Demo.represent (Demo.row 2 "bo")]))
               HTTP_200_OK []),
     mkWorld [Demo.row 1 "al"; Demo.row 2 "bo"; Demo.row 3 "cyd"]
       [CGetObjectOr404 (JNum 1); CIsValid (Demo.item 1 "al");
        CGetObjectOr404 (JNum 2); CIsValid (Demo.item 2 "bo"); CSave]).
Proof. vm_compute. reflexivity. Qed.

Example bulk_update_one_invalid :
  bulk_update Demo.view (mkRequest (JList [Demo.item 1 "al"; Demo.item 2 EmptyString])) [] Demo.world
  = (Raise (ValidationError [Demo.blank]),
     mkWorld Demo.table
       [CGetObjectOr404 (JNum 1); CIsValid (Demo.item 1 "al");
        CGetObjectOr404 (JNum 2); CIsValid (Demo.item 2 EmptyString)]).
Proof. vm_compute. reflexivity. Qed.

Example bulk_update_out_of_scope :
  bulk_update Demo.view (mkRequest (JList [Demo.item 1 "al"; Demo.item 3 "cy"])) [] Demo.world
  = (Raise Http404,
     mkWorld Demo.table
       [CGetObjectOr404 (JNum 1); CIsValid (Demo.item 1 "al");
        CGetObjectOr404 (JNum 3)]).
Proof. vm_compute. reflexivity. Qed.

Example create_list_valid :
  create Demo.view (mkRequest (JList [Demo.no_id "dee"; Demo.no_id "eve"])) Demo.world
  = (Return (mkResponse
               (Some (JList [Demo.represent (Demo.row 4 "dee");
                             Demo.represent (Demo.row 5 "eve")]))
               HTTP_201_CREATED []),
     mkWorld (Demo.table ++ [Demo.row 4 "dee"; Demo.row 5 "eve"])
       [CIsValid (JList [Demo.no_id "dee"; Demo.no_id "eve"]); CSave]).
Proof. vm_compute. reflexivity. Qed.

Example create_list_invalid :
  create Demo.view (mkRequest (JList [Demo.no_id "dee"; Demo.no_id EmptyString])) Demo.world
  = (Raise (APIValidationError (DetailMany [[]; Demo.blank])),
     mkWorld Demo.table [CIsValid (JList [Demo.no_id "dee"; Demo.no_id EmptyString])]).
Proof. vm_compute. reflexivity. Qed.

Example bulk_destroy_filtered :
  bulk_destroy Demo.view (mkRequest JNull) Demo.world
  = (Return (mkResponse None HTTP_204_NO_CONTENT []),
     mkWorld [Demo.row 3 "cyd"] [CDelete (Demo.row 1 "ann"); CDelete (Demo.row 2 "bob")]).
Proof. vm_compute. reflexivity. Qed.

Example bulk_destroy_unfiltered :
  bulk_destroy Demo.unfiltered_view (mkRequest JNull) Demo.world
  = (Return (mkResponse None HTTP_400_BAD_REQUEST []), Demo.world).
Proof. vm_compute. reflexivity. Qed.

(** ** How the framework calls run *)

Section Runs.

Variable view : View.

Local Notation "'filtered'" := (filter_queryset view (get_queryset view)).

Lemma get_object_or_404_world (q : QuerySet) (ident : json) (w : World) :
  snd (get_object_or_404 view q ident w) = log (CGetObjectOr404 ident) w.
Proof.
  unfold get_object_or_404, bind, tell; simpl.
  destruct (pk_to_python view ident) as [k|]; [|reflexivity].
  destruct (filter _ _) as [|o [|o' l]]; reflexivity.
Qed.

Lemma get_object_or_404_reads_db (q : QuerySet) (ident : json) (w1 w2 : World) :
  db w1 = db w2 ->
  fst (get_object_or_404 view q ident w1) = fst (get_object_or_404 view q ident w2).
Proof.
  intros Hdb. unfold get_object_or_404, bind, tell; simpl. rewrite Hdb.
  destruct (pk_to_python view ident) as [k|]; [|reflexivity].
  destruct (filter _ _) as [|o [|o' l]]; reflexivity.
Qed.

Lemma lookup_item_reads_db (item : json) (w1 w2 : World) :
  db w1 = db w2 ->
  fst (lookup_item view item w1) = fst (lookup_item view item w2).
Proof.
  intros Hdb. unfold lookup_item, bind, lift.
  destruct (py_getitem item "id") as [ident|e]; [|reflexivity].
  pose proof (get_object_or_404_reads_db filtered ident w1 w2 Hdb) as H.
  destruct (get_object_or_404 view filtered ident w1) as [[o1|e1] w1'],
           (get_object_or_404 view filtered ident w2) as [[o2|e2] w2'];
    simpl in *; congruence.
Qed.

Lemma Serializer_is_valid_run (partial : bool) (obj : Obj) (item : json) (w : World) :
  Serializer_is_valid view (get_serializer (Some obj) item partial) false w
  = (Return (checked view (db w) partial obj item), log (CIsValid item) w).
Proof.
  unfold Serializer_is_valid, checked, bind, tell, get_serializer; simpl.
  destruct (run_validation view (db w) (Some obj) item partial) as [d|e]; simpl.
  - reflexivity.
  - rewrite andb_false_r. reflexivity.
Qed.

Lemma validate_item_run (partial : bool) (item : json) (obj : Obj) (w : World) :
  fst (lookup_item view item w) = Return obj ->
  validate_item view partial item w
  = (Return (checked view (db w) partial obj item),
     mkWorld (db w) (trace w ++ item_calls item)).
Proof.
  unfold validate_item, lookup_item, item_calls, bind, lift.
  destruct (py_getitem item "id") as [ident|e]; simpl; [|discriminate].
  pose proof (get_object_or_404_world filtered ident w) as Hw.
  destruct (get_object_or_404 view filtered ident w) as [[o|e] w']; simpl in *;
    [|discriminate].
  intros [= ->]. subst w'. rewrite Serializer_is_valid_run. simpl.
  unfold log; simpl. rewrite <- app_assoc. reflexivity.
Qed.

Lemma failure_errors_checked (w : World) (partial : bool) (item : json) :
  failure_errors view w partial item
  = match fst (validate_item view partial item w) with
    | Return c => checked_errors c
    | Raise _ => []
    end.
Proof.
  unfold failure_errors, checked_errors.
  destruct (fst (validate_item view partial item w)) as [[[|] s]|e]; reflexivity.
Qed.

Lemma validate_item_reads_db (partial : bool) (item : json) (w1 w2 : World) :
  db w1 = db w2 ->
  fst (validate_item view partial item w1) = fst (validate_item view partial item w2).
Proof.
  intros Hdb. pose proof (lookup_item_reads_db item w1 w2 Hdb) as Hl.
  destruct (fst (lookup_item view item w1)) as [obj|e] eqn:H1.
  - symmetry in Hl.
    rewrite (validate_item_run partial item obj w1 H1).
    rewrite (validate_item_run partial item obj w2 Hl). simpl. now rewrite Hdb.
  - unfold validate_item, bind in *. symmetry in Hl.
    destruct (lookup_item view item w1) as [[o1|e1] w1'],
             (lookup_item view item w2) as [[o2|e2] w2']; simpl in *; congruence.
Qed.

(** One turn of the loop, for an item whose lookup succeeds. *)
Lemma bulk_update_loop_step (partial : bool) (item : json) (rest : list json)
  (vd : list dict) (ve : list errors) (obj : Obj) (w : World) :
  fst (lookup_item view item w) = Return obj ->
  bulk_update_loop view partial (item :: rest) vd ve w
  = bulk_update_loop view partial rest
      (vd ++ checked_data (checked view (db w) partial obj item))
      (ve ++ checked_errors (checked view (db w) partial obj item))
      (mkWorld (db w) (trace w ++ item_calls item)).
Proof.
  intros Hl. pose proof (validate_item_run partial item obj w Hl) as Hv.
  unfold validate_item, lookup_item in Hv, Hl.
  simpl bulk_update_loop. unfold bind in *.
  destruct (lift (py_getitem item "id") w) as [[ident|e] w1]; simpl in *;
    [|discriminate].
  destruct (get_object_or_404 view filtered ident w1) as [[o|e] w2]; simpl in *;
    [|discriminate].
  change (@is_valid Serializer (Serializer_BaseSerializer view))
    with (Serializer_is_valid view).
  rewrite Hv. unfold checked, checked_data, checked_errors.
  destruct (run_validation view (db w) (Some obj) item partial) as [d|e]; simpl.
  - unfold ret. rewrite app_nil_r. reflexivity.
  - destruct e as [|x e]; simpl; unfold ret.
    + rewrite app_nil_r. reflexivity.
    + reflexivity.
Qed.

Lemma lookup_item_world (item : json) (w : World) :
  snd (lookup_item view item w)
  = mkWorld (db w)
      (trace w ++ match py_getitem item "id" with
                  | Return ident => [CGetObjectOr404 ident]
                  | Raise _ => []
                  end).
Proof.
  unfold lookup_item, bind, lift.
  destruct (py_getitem item "id") as [ident|e]; simpl.
  - pose proof (get_object_or_404_world filtered ident w) as Hw.
    destruct (get_object_or_404 view filtered ident w) as [[o|e] w']; simpl in *;
      subst w'; reflexivity.
  - rewrite app_nil_r. destruct w; reflexivity.
Qed.

(** One turn of the loop, for an item whose lookup raises. *)
Lemma bulk_update_loop_raise (partial : bool) (item : json) (rest : list json)
  (vd : list dict) (ve : list errors) (e : exn) (w : World) :
  fst (lookup_item view item w) = Raise e ->
  bulk_update_loop view partial (item :: rest) vd ve w
  = (Raise e, snd (lookup_item view item w)).
Proof.
  unfold lookup_item. simpl bulk_update_loop. unfold bind.
  destruct (lift (py_getitem item "id") w) as [[ident|e1] w1]; simpl.
  - destruct (get_object_or_404 view filtered ident w1) as [[o|e2] w2]; simpl;
      [discriminate|]. now intros [= ->].
  - now intros [= ->].
Qed.

Lemma item_data_checked (partial : bool) (item : json) (obj : Obj) (w : World) :
  fst (lookup_item view item w) = Return obj ->
  item_data view w partial item = checked_data (checked view (db w) partial obj item).
Proof.
  intros Hl. unfold item_data. now rewrite (validate_item_run partial item obj w Hl).
Qed.

Lemma failure_errors_run (partial : bool) (item : json) (obj : Obj) (w : World) :
  fst (lookup_item view item w) = Return obj ->
  failure_errors view w partial item
  = checked_errors (checked view (db w) partial obj item).
Proof.
  intros Hl. rewrite failure_errors_checked.
  now rewrite (validate_item_run partial item obj w Hl).
Qed.

(** The loop over a batch whose lookups all succeed: it returns, with one
    validated-data entry per item and the error sets of the failing items,
    having looked up and checked every item in order. *)
Lemma bulk_update_loop_run (partial : bool) (w0 : World) (items : list json) :
  Forall (lookup_succeeds view w0) items ->
  forall (vd : list dict) (ve : list errors) (w : World),
    db w = db w0 ->
    bulk_update_loop view partial items vd ve w
    = (Return (vd ++ flat_map (item_data view w0 partial) items,
               ve ++ flat_map (failure_errors view w0 partial) items),
       mkWorld (db w) (trace w ++ flat_map item_calls items)).
Proof.
  induction 1 as [|item rest [obj Hobj] _ IH]; intros vd ve w Hdb.
  - simpl. unfold ret. rewrite !app_nil_r. destruct w; reflexivity.
  - assert (Hl : fst (lookup_item view item w) = Return obj)
      by (rewrite (lookup_item_reads_db item w w0 Hdb); exact Hobj).
    rewrite (bulk_update_loop_step partial item rest vd ve obj w Hl).
    rewrite IH by exact Hdb. simpl.
    rewrite (item_data_checked partial item obj w0 Hobj).
    rewrite (failure_errors_run partial item obj w0 Hobj).
    rewrite Hdb, <- !app_assoc. reflexivity.
Qed.

(** Whatever the batch, the loop leaves the table alone and saves nothing. *)
Lemma bulk_update_loop_quiet (partial : bool) (items : list json) :
  forall (vd : list dict) (ve : list errors) (w : World),
    db (snd (bulk_update_loop view partial items vd ve w)) = db w /\
    exists calls,
      trace (snd (bulk_update_loop view partial items vd ve w)) = trace w ++ calls /\
      ~ In CSave calls.
Proof.
  induction items as [|item rest IH]; intros vd ve w.
  - simpl. split; [reflexivity|]. exists []. rewrite app_nil_r. auto.
  - destruct (fst (lookup_item view item w)) as [obj|e] eqn:Hl.
    + rewrite (bulk_update_loop_step partial item rest vd ve obj w Hl).
      match goal with |- context [bulk_update_loop view partial rest ?a ?b ?c] =>
        destruct (IH a b c) as [Hdb [calls [Ht Hns]]] end.
      split; [exact Hdb|]. exists (item_calls item ++ calls).
      rewrite Ht. simpl. rewrite app_assoc. split; [reflexivity|].
      intros Hin. apply in_app_or in Hin as [Hin|Hin]; [|tauto].
      unfold item_calls in Hin.
      destruct (py_getitem item "id"); simpl in Hin;
        intuition discriminate.
    + rewrite (bulk_update_loop_raise partial item rest vd ve e w Hl). simpl.
      rewrite lookup_item_world. simpl. split; [reflexivity|].
      eexists. split; [reflexivity|].
      destruct (py_getitem item "id"); simpl; intuition discriminate.
Qed.

(** The first item whose lookup raises ends the loop. *)
Lemma bulk_update_loop_abort (partial : bool) (w0 : World) (item : json)
  (after : list json) (e0 : exn) :
  fst (lookup_item view item w0) = Raise e0 ->
  forall (before : list json) (vd : list dict) (ve : list errors) (w : World),
    db w = db w0 ->
    exists e,
      fst (bulk_update_loop view partial (before ++ item :: after) vd ve w) = Raise e /\
      (Forall (lookup_succeeds view w0) before -> e = e0).
Proof.
  intros H0. induction before as [|h before IH]; intros vd ve w Hdb.
  - assert (Hl : fst (lookup_item view item w) = Raise e0)
      by (rewrite (lookup_item_reads_db item w w0 Hdb); exact H0).
    simpl app. rewrite (bulk_update_loop_raise partial item after vd ve e0 w Hl).
    exists e0. auto.
  - simpl app. destruct (fst (lookup_item view h w)) as [obj|e] eqn:Hl.
    + rewrite (bulk_update_loop_step partial h _ vd ve obj w Hl).
      match goal with |- context [bulk_update_loop view partial _ ?a ?b ?c] =>
        destruct (IH a b c Hdb) as [e [He Hfirst]] end.
      exists e. split; [exact He|].
      intros HF. apply Hfirst. now inversion HF.
    + rewrite (bulk_update_loop_raise partial h _ vd ve e w Hl).
      exists e. split; [reflexivity|].
      intros HF. inversion HF as [|? ? [obj Hobj] _]; subst.
      rewrite (lookup_item_reads_db h w w0 Hdb) in Hl. congruence.
Qed.

End Runs.

(** ** Bulk update *)

Section BulkUpdate.

Variable view : View.

Lemma failure_errors_fails (w : World) (partial : bool) (item : json) :
  lookup_succeeds view w item ->
  if fails_validation view w partial item
  then exists e, failure_errors view w partial item = [e] /\ e <> []
  else failure_errors view w partial item = [].
Proof.
  intros [obj Hobj]. unfold fails_validation, failure_errors.
  rewrite (validate_item_run view partial item obj w Hobj). simpl.
  unfold checked.
  destruct (run_validation view (db w) (Some obj) item partial) as [d|[|x e]];
    simpl; try reflexivity.
  eexists. split; [reflexivity|discriminate].
Qed.

Lemma failure_errors_length (w : World) (partial : bool) (items : list json) :
  Forall (lookup_succeeds view w) items ->
  List.length (flat_map (failure_errors view w partial) items)
  = List.length (filter (fails_validation view w partial) items).
Proof.
  induction 1 as [|item rest Hitem _ IH]; [reflexivity|].
  simpl. rewrite length_app, IH.
  pose proof (failure_errors_fails w partial item Hitem) as Hf.
  destruct (fails_validation view w partial item).
  - destruct Hf as [e [-> _]]. reflexivity.
  - rewrite Hf. reflexivity.
Qed.

Lemma failure_errors_nonempty (w : World) (partial : bool) (items : list json) :
  Forall (lookup_succeeds view w) items ->
  Forall (fun e => e <> []) (flat_map (failure_errors view w partial) items).
Proof.
  induction 1 as [|item rest Hitem _ IH]; [constructor|].
  simpl. apply Forall_app. split; [|exact IH].
  pose proof (failure_errors_fails w partial item Hitem) as Hf.
  destruct (fails_validation view w partial item).
  - destruct Hf as [e [-> He]]. constructor; [exact He|constructor].
  - rewrite Hf. constructor.
Qed.

Lemma some_failure (w : World) (partial : bool) (items : list json) :
  Forall (lookup_succeeds view w) items ->
  Exists (fun item => fails_validation view w partial item = true) items ->
  nonempty (flat_map (failure_errors view w partial) items) = true.
Proof.
  intros HF HE.
  assert (Hlen : 1 <= List.length (flat_map (failure_errors view w partial) items)).
  { rewrite (failure_errors_length w partial items HF).
    apply Exists_exists in HE as [item [Hin Hfail]].
    assert (Hin' : In item (filter (fails_validation view w partial) items))
      by (apply filter_In; auto).
    destruct (filter (fails_validation view w partial) items);
      [contradiction|simpl; lia]. }
  destruct (flat_map (failure_errors view w partial) items);
    [simpl in Hlen; lia|reflexivity].
Qed.

(** A batch with a failing item: the aggregate error is raised where the
    loop left the world. *)
Lemma bulk_update_rejects (request : Request) (kwargs : dict) (w : World)
  (items : list json) :
  py_iter (data request) = Return items ->
  Forall (lookup_succeeds view w) items ->
  Exists (fun item => fails_validation view w (partial_of kwargs) item = true) items ->
  bulk_update view request kwargs w
  = (Raise (ValidationError
              (flat_map (failure_errors view w (partial_of kwargs)) items)),
     mkWorld (db w) (trace w ++ flat_map item_calls items)).
Proof.
  intros Hiter HF HE. unfold bulk_update, bind, lift. rewrite Hiter.
  fold (partial_of kwargs).
  rewrite (bulk_update_loop_run view (partial_of kwargs) w items HF [] [] w eq_refl).
  cbn [app]. rewrite (some_failure w (partial_of kwargs) items HF HE).
  reflexivity.
Qed.

Lemma is_valid_calls_app (t1 t2 : list call) :
  is_valid_calls (t1 ++ t2) = is_valid_calls t1 ++ is_valid_calls t2.
Proof. unfold is_valid_calls. apply flat_map_app. Qed.

Lemma is_valid_calls_items (w : World) (items : list json) :
  Forall (lookup_succeeds view w) items ->
  is_valid_calls (flat_map item_calls items) = items.
Proof.
  induction 1 as [|item rest [obj Hobj] _ IH]; [reflexivity|].
  simpl. rewrite is_valid_calls_app, IH. unfold item_calls.
  unfold lookup_item, bind, lift in Hobj.
  destruct (py_getitem item "id"); [reflexivity|discriminate].
Qed.

(** The trace of a whole bulk update whose lookups succeed. *)
Lemma bulk_update_trace (request : Request) (kwargs : dict) (w : World)
  (items : list json) :
  py_iter (data request) = Return items ->
  Forall (lookup_succeeds view w) items ->
  trace (snd (bulk_update view request kwargs w))
  = trace w ++ flat_map item_calls items ++
    (if nonempty (flat_map (failure_errors view w (partial_of kwargs)) items)
     then [] else [CSave]).
Proof.
  intros Hiter HF. unfold bulk_update, bind, lift. rewrite Hiter.
  fold (partial_of kwargs).
  rewrite (bulk_update_loop_run view (partial_of kwargs) w items HF [] [] w eq_refl).
  cbn [app].
  destruct (nonempty (flat_map (failure_errors view w (partial_of kwargs)) items)).
  - simpl. now rewrite app_nil_r.
  - unfold perform_bulk_update, perform_update. simpl.
    unfold ListSerializer_save, bind, tell, lift_store, get_serializer_many; simpl.
    destruct (list_serializer_update view _ _ _) as [[objs|e] db']; simpl.
    + now rewrite <- app_assoc.
    + now rewrite <- app_assoc.
Qed.

End BulkUpdate.

(** ** The properties of bulk update *)

(** C1, as amended.  For a bulk update batch whose lookups all succeed and
    in which some item fails validation, the request fails with the
    aggregate validation error whose payload is the error sets of the
    failing items only, in batch order: its length is the number of failing
    items (at least 1, at most N), every entry is a non-empty error set,
    and the valid items contribute no entry. *)
Theorem bulk_update_error_payload (view : View) (request : Request)
  (kwargs : dict) (w : World) (items : list json) :
  py_iter (data request) = Return items ->
  Forall (lookup_succeeds view w) items ->
  Exists (fun item => fails_validation view w (partial_of kwargs) item = true) items ->
  let payload := flat_map (failure_errors view w (partial_of kwargs)) items in
  fst (bulk_update view request kwargs w) = Raise (ValidationError payload) /\
  List.length payload
  = List.length (filter (fails_validation view w (partial_of kwargs)) items) /\
  1 <= List.length payload <= List.length items /\
  Forall (fun e => e <> []) payload.
Proof.
  intros Hiter HF HE payload. subst payload.
  rewrite (bulk_update_rejects view request kwargs w items Hiter HF HE).
  split; [reflexivity|].
  pose proof (failure_errors_length view w (partial_of kwargs) items HF) as Hlen.
  split; [exact Hlen|]. split.
  - rewrite Hlen. split; [|apply filter_length_le].
    apply Exists_exists in HE as [item [Hin Hfail]].
    assert (Hin' : In item (filter (fails_validation view w (partial_of kwargs)) items))
      by (apply filter_In; auto).
    destruct (filter (fails_validation view w (partial_of kwargs)) items);
      [contradiction|simpl; lia].
  - apply failure_errors_nonempty. exact HF.
Qed.

Lemma bulk_update_error_payload_witness :
  let items := [Demo.item 1 "al"; Demo.item 2 EmptyString] in
  fst (bulk_update Demo.view (mkRequest (JList items)) [] Demo.world)
  = Raise (ValidationError [Demo.blank]).
Proof.
  intros items.
  refine (proj1 (bulk_update_error_payload Demo.view (mkRequest (JList items)) []
                   Demo.world items eq_refl _ _)).
  - repeat constructor; eexists; vm_compute; reflexivity.
  - apply Exists_cons_tl, Exists_cons_hd. vm_compute. reflexivity.
Defined.

(** Counterexample to C1 as stated.  In the batch of two items whose
    lookups succeed, the first valid and the second blank, the payload of
    the error has one entry, not two, and nothing stands at the position of
    the valid item. *)
Lemma bulk_update_payload_not_positional :
  let items := [Demo.item 1 "al"; Demo.item 2 EmptyString] in
  Forall (lookup_succeeds Demo.view Demo.world) items /\
  fails_validation Demo.view Demo.world false (Demo.item 1 "al") = false /\
  fails_validation Demo.view Demo.world false (Demo.item 2 EmptyString) = true /\
  fst (bulk_update Demo.view (mkRequest (JList items)) [] Demo.world)
  = Raise (ValidationError [Demo.blank]) /\
  ~ positional_errors items
      (fun item => negb (fails_validation Demo.view Demo.world false item))
      [Demo.blank].
Proof.
  intros items. split; [|split; [|split; [|split]]].
  - repeat constructor; eexists; vm_compute; reflexivity.
  - vm_compute. reflexivity.
  - vm_compute. reflexivity.
  - vm_compute. reflexivity.
  - intros [Hlen _]. simpl in Hlen. discriminate.
Qed.

(** C2.  For a bulk update batch whose lookups all succeed and in which at
    least one item fails validation, the operation raises the aggregate
    validation error, the table is left as it was, and no save is called. *)
Theorem bulk_update_no_partial_persistence (view : View) (request : Request)
  (kwargs : dict) (w : World) (items : list json) :
  py_iter (data request) = Return items ->
  Forall (lookup_succeeds view w) items ->
  Exists (fun item => fails_validation view w (partial_of kwargs) item = true) items ->
  exists payload calls,
    fst (bulk_update view request kwargs w) = Raise (ValidationError payload) /\
    db (snd (bulk_update view request kwargs w)) = db w /\
    trace (snd (bulk_update view request kwargs w)) = trace w ++ calls /\
    ~ In CSave calls.
Proof.
  intros Hiter HF HE.
  rewrite (bulk_update_rejects view request kwargs w items Hiter HF HE). simpl.
  do 2 eexists. repeat split.
  intros Hin. apply in_flat_map in Hin as [item [_ Hin]].
  unfold item_calls in Hin.
  destruct (py_getitem item "id"); simpl in Hin; intuition discriminate.
Qed.

Lemma bulk_update_no_partial_persistence_witness :
  exists payload calls,
    fst (bulk_update Demo.view (mkRequest (JList [Demo.item 1 EmptyString; Demo.item 2 "bo"]))
           [] Demo.world) = Raise (ValidationError payload) /\
    db (snd (bulk_update Demo.view
               (mkRequest (JList [Demo.item 1 EmptyString; Demo.item 2 "bo"])) [] Demo.world))
    = Demo.table /\
    trace (snd (bulk_update Demo.view
                  (mkRequest (JList [Demo.item 1 EmptyString; Demo.item 2 "bo"])) [] Demo.world))
    = [] ++ calls /\
    ~ In CSave calls.
Proof.
  refine (bulk_update_no_partial_persistence Demo.view
            (mkRequest (JList [Demo.item 1 EmptyString; Demo.item 2 "bo"])) [] Demo.world
            [Demo.item 1 EmptyString; Demo.item 2 "bo"] eq_refl _ _).
  - repeat constructor; eexists; vm_compute; reflexivity.
  - apply Exists_cons_hd. vm_compute. reflexivity.
Defined.

(** C3.  For a bulk update batch whose lookups all succeed, the validity
    check of every item returns a boolean and does not raise; the loop runs
    to its end whatever the checks answer, with one validated-data entry per
    item and the error sets of the failing items in the accumulator; the
    check has been called on every item of the batch, in order, by the time
    the operation ends; the aggregate error is raised when the accumulator
    is not empty, and otherwise the operation goes on to the save. *)
Theorem bulk_update_validates_every_item (view : View) (request : Request)
  (kwargs : dict) (w : World) (items : list json) :
  py_iter (data request) = Return items ->
  Forall (lookup_succeeds view w) items ->
  let partial := partial_of kwargs in
  let accumulated := flat_map (failure_errors view w partial) items in
  Forall (fun item =>
            exists (ok : bool) (s : Serializer),
              fst (validate_item view partial item w) = Return (ok, s)) items /\
  (exists validated w',
      bulk_update_loop view partial items [] [] w
      = (Return (validated, accumulated), w') /\
      List.length validated = List.length items /\
      is_valid_calls (trace w') = is_valid_calls (trace w) ++ items) /\
  is_valid_calls (trace (snd (bulk_update view request kwargs w)))
  = is_valid_calls (trace w) ++ items /\
  (accumulated <> [] ->
   fst (bulk_update view request kwargs w) = Raise (ValidationError accumulated)) /\
  (accumulated = [] ->
   In CSave (trace (snd (bulk_update view request kwargs w)))).
Proof.
  intros Hiter HF partial accumulated. subst partial accumulated.
  split; [|split; [|split; [|split]]].
  - apply Forall_forall. intros item Hin.
    destruct (proj1 (Forall_forall _ _) HF item Hin) as [obj Hobj].
    rewrite (validate_item_run view (partial_of kwargs) item obj w Hobj). simpl.
    destruct (checked view (db w) (partial_of kwargs) obj item) as [ok s].
    now exists ok, s.
  - rewrite (bulk_update_loop_run view (partial_of kwargs) w items HF [] [] w eq_refl).
    do 2 eexists. split; [reflexivity|]. split.
    + cbn [app]. clear Hiter.
      induction HF as [|item rest [obj Hobj] _ IH]; [reflexivity|].
      simpl. rewrite length_app, IH.
      rewrite (item_data_checked view (partial_of kwargs) item obj w Hobj).
      unfold checked, checked_data.
      destruct (run_validation view (db w) (Some obj) item (partial_of kwargs));
        reflexivity.
    + simpl. rewrite is_valid_calls_app.
      now rewrite (is_valid_calls_items view w items HF).
  - rewrite (bulk_update_trace view request kwargs w items Hiter HF).
    rewrite !is_valid_calls_app, (is_valid_calls_items view w items HF).
    destruct (nonempty _); simpl; now rewrite app_nil_r.
  - intros Hne. unfold bulk_update, bind, lift. rewrite Hiter.
    fold (partial_of kwargs).
    rewrite (bulk_update_loop_run view (partial_of kwargs) w items HF [] [] w eq_refl).
    cbn [app].
    destruct (flat_map (failure_errors view w (partial_of kwargs)) items);
      [congruence|reflexivity].
  - intros Hnil.
    rewrite (bulk_update_trace view request kwargs w items Hiter HF), Hnil. simpl.
    apply in_or_app. right. apply in_or_app. right. now left.
Qed.

Lemma bulk_update_validates_every_item_witness :
  is_valid_calls
    (trace (snd (bulk_update Demo.view
                   (mkRequest (JList [Demo.item 1 EmptyString; Demo.item 2 "bo"; Demo.item 1 EmptyString]))
                   [] Demo.world)))
  = [] ++ [Demo.item 1 EmptyString; Demo.item 2 "bo"; Demo.item 1 EmptyString].
Proof.
  refine (proj1 (proj2 (proj2
            (bulk_update_validates_every_item Demo.view
               (mkRequest (JList [Demo.item 1 EmptyString; Demo.item 2 "bo"; Demo.item 1 EmptyString]))
               [] Demo.world [Demo.item 1 EmptyString; Demo.item 2 "bo"; Demo.item 1 EmptyString]
               eq_refl _)))).
  repeat constructor; eexists; vm_compute; reflexivity.
Defined.

(** A loop that raises ends the whole operation with that exception. *)
Lemma bulk_update_propagates (view : View) (request : Request) (kwargs : dict)
  (w : World) (items : list json) (e : exn) :
  py_iter (data request) = Return items ->
  fst (bulk_update_loop view (partial_of kwargs) items [] [] w) = Raise e ->
  bulk_update view request kwargs w
  = (Raise e, snd (bulk_update_loop view (partial_of kwargs) items [] [] w)).
Proof.
  intros Hiter Hloop. unfold bulk_update, bind, lift. rewrite Hiter.
  fold (partial_of kwargs).
  destruct (bulk_update_loop view (partial_of kwargs) items [] [] w) as [[a|e'] w'];
    simpl in *; [discriminate|congruence].
Qed.

(** A batch with an item whose lookup raises: the operation ends with an
    exception, the one of that item when the lookups before it succeed,
    and neither the table nor a save is touched. *)
Lemma bulk_update_aborts (view : View) (request : Request) (kwargs : dict)
  (w : World) (before : list json) (item : json) (after : list json) (e0 : exn) :
  py_iter (data request) = Return (before ++ item :: after) ->
  fst (lookup_item view item w) = Raise e0 ->
  exists e calls,
    fst (bulk_update view request kwargs w) = Raise e /\
    db (snd (bulk_update view request kwargs w)) = db w /\
    trace (snd (bulk_update view request kwargs w)) = trace w ++ calls /\
    ~ In CSave calls /\
    (Forall (lookup_succeeds view w) before -> e = e0).
Proof.
  intros Hiter H0.
  destruct (bulk_update_loop_abort view (partial_of kwargs) w item after e0 H0
              before [] [] w eq_refl) as [e [He Hfirst]].
  destruct (bulk_update_loop_quiet view (partial_of kwargs) (before ++ item :: after)
              [] [] w) as [Hdb [calls [Ht Hns]]].
  exists e, calls.
  rewrite (bulk_update_propagates view request kwargs w _ e Hiter He). simpl.
  auto.
Qed.

(** An identifier the primary key field accepts and no object of the
    filtered queryset has: the lookup of the item raises not-found. *)
Lemma lookup_item_not_found (view : View) (w : World) (item ident : json) (k : Z) :
  py_getitem item "id" = Return ident ->
  pk_to_python view ident = Some k ->
  (forall o, In o (qs_eval (filter_queryset view (get_queryset view)) (db w)) ->
             pk o <> k) ->
  fst (lookup_item view item w) = Raise Http404.
Proof.
  intros Hid Hpk Hnone. unfold lookup_item, bind, lift. rewrite Hid.
  unfold get_object_or_404, bind, tell. simpl. rewrite Hpk.
  destruct (filter (fun o => Z.eqb (pk o) k)
              (qs_eval (filter_queryset view (get_queryset view)) (db w)))
    as [|o l] eqn:Hf; [reflexivity|].
  assert (Hin : In o (filter (fun o => Z.eqb (pk o) k)
                        (qs_eval (filter_queryset view (get_queryset view)) (db w))))
    by (rewrite Hf; now left).
  apply filter_In in Hin as [Hin Hk]. apply Z.eqb_eq in Hk.
  exfalso. exact (Hnone o Hin Hk).
Qed.

(** An identifier the primary key field does not accept: the lookup of the
    item raises, and what it raises is not the not-found condition. *)
Lemma lookup_item_rejected (view : View) (w : World) (item ident : json) :
  py_getitem item "id" = Return ident ->
  pk_to_python view ident = None ->
  fst (lookup_item view item w) = Raise ValueError.
Proof.
  intros Hid Hpk. unfold lookup_item, bind, lift. rewrite Hid.
  unfold get_object_or_404, bind, tell. simpl. now rewrite Hpk.
Qed.

(** C7, as amended.  For a bulk update batch containing an item whose
    identifier resolves to no object of the filtered queryset (the primary
    key field does not accept it, or accepts it as a key that no object of
    the filtered queryset has), the request is aborted by an exception
    before the batch save is reached, and every persisted record is left as
    it was; the exception is the not-found condition of that item's lookup
    whenever the field accepts the identifier and the lookups of the items
    before it succeed. *)
Theorem bulk_update_not_found (view : View) (request : Request) (kwargs : dict)
  (w : World) (before : list json) (item : json) (after : list json)
  (ident : json) :
  py_iter (data request) = Return (before ++ item :: after) ->
  py_getitem item "id" = Return ident ->
  (forall k, pk_to_python view ident = Some k ->
             forall o,
               In o (qs_eval (filter_queryset view (get_queryset view)) (db w)) ->
               pk o <> k) ->
  exists e calls,
    fst (bulk_update view request kwargs w) = Raise e /\
    db (snd (bulk_update view request kwargs w)) = db w /\
    trace (snd (bulk_update view request kwargs w)) = trace w ++ calls /\
    ~ In CSave calls /\
    (Forall (lookup_succeeds view w) before ->
     forall k, pk_to_python view ident = Some k -> e = Http404).
Proof.
  intros Hiter Hid Hnone.
  destruct (pk_to_python view ident) as [k|] eqn:Hpk.
  - destruct (bulk_update_aborts view request kwargs w before item after Http404
                Hiter (lookup_item_not_found view w item ident k Hid Hpk
                         (Hnone k eq_refl)))
      as [e [calls [Hr [Hdb [Ht [Hns Hfirst]]]]]].
    exists e, calls. repeat (split; [assumption|]). auto.
  - destruct (bulk_update_aborts view request kwargs w before item after ValueError
                Hiter (lookup_item_rejected view w item ident Hid Hpk))
      as [e [calls [Hr [Hdb [Ht [Hns _]]]]]].
    exists e, calls. repeat (split; [assumption|]). intros _ k Hk. discriminate.
Qed.

Lemma bulk_update_not_found_witness :
  exists e calls,
    fst (bulk_update Demo.view (mkRequest (JList [Demo.item 1 "al"; Demo.item 3 "cy"]))
           [] Demo.world) = Raise e /\
    db (snd (bulk_update Demo.view
               (mkRequest (JList [Demo.item 1 "al"; Demo.item 3 "cy"])) [] Demo.world))
    = Demo.table /\
    trace (snd (bulk_update Demo.view
                  (mkRequest (JList [Demo.item 1 "al"; Demo.item 3 "cy"])) [] Demo.world))
    = [] ++ calls /\
    ~ In CSave calls /\
    (Forall (lookup_succeeds Demo.view Demo.world) [Demo.item 1 "al"] ->
     forall k, pk_to_python Demo.view (JNum 3) = Some k -> e = Http404).
Proof.
  refine (bulk_update_not_found Demo.view
            (mkRequest (JList [Demo.item 1 "al"; Demo.item 3 "cy"])) [] Demo.world
            [Demo.item 1 "al"] (Demo.item 3 "cy") [] (JNum 3) eq_refl eq_refl _).
  intros k [= <-] o Ho. vm_compute in Ho.
  destruct Ho as [<-|[<-|[]]]; discriminate.
Defined.

(** Counterexample to C7 as stated.  In the first batch the second item
    has an identifier that no object of the filtered queryset has, yet the
    request ends with the key error of the first item, which carries no
    identifier.  In the second batch the only item has an identifier that
    resolves to no object because the primary key field does not accept it,
    and the request ends with the error of the field.  In neither is a
    not-found condition raised. *)
Lemma bulk_update_not_found_preempted :
  let items := [Demo.no_id "al"; Demo.item 3 "cy"] in
  let odd := JDict [("id", JStr "abc"); ("name", JStr "cy")] in
  py_getitem (Demo.item 3 "cy") "id" = Return (JNum 3) /\
  pk_to_python Demo.view (JNum 3) = Some 3%Z /\
  (forall o, In o (qs_eval (filter_queryset Demo.view (get_queryset Demo.view))
                     Demo.table) -> pk o <> 3%Z) /\
  fst (bulk_update Demo.view (mkRequest (JList items)) [] Demo.world)
  = Raise (KeyError "id") /\
  fst (bulk_update Demo.view (mkRequest (JList items)) [] Demo.world)
  <> Raise Http404 /\
  py_getitem odd "id" = Return (JStr "abc") /\
  pk_to_python Demo.view (JStr "abc") = None /\
  fst (bulk_update Demo.view (mkRequest (JList [odd])) [] Demo.world)
  <> Raise Http404.
Proof.
  intros items odd.
  split; [reflexivity|]. split; [reflexivity|]. split.
  { intros o Ho. vm_compute in Ho. destruct Ho as [<-|[<-|[]]]; discriminate. }
  split; [vm_compute; reflexivity|]. split; [vm_compute; discriminate|].
  split; [reflexivity|]. split; [reflexivity|].
  vm_compute. discriminate.
Qed.

Lemma bulk_update_ignores_lookup_field (view : View) (field : string)
  (url_kwarg : option string) (request : Request) (kwargs : dict) (w : World) :
  bulk_update (with_lookup view field url_kwarg) request kwargs w
  = bulk_update view request kwargs w.
Proof. reflexivity. Qed.

(** C10, as amended.  The identifier of each item of a bulk update batch is
    read from the key 'id', whatever the lookup field and lookup keyword of
    the view; a batch with an item that is a mapping without the key 'id'
    is aborted by an exception before any save, the table left as it was,
    and the exception is the key-lookup error of that item whenever the
    lookups of the items before it succeed. *)
Theorem bulk_update_missing_id (view : View) (request : Request) (kwargs : dict)
  (w : World) (before : list json) (d : dict) (after : list json) :
  py_iter (data request) = Return (before ++ JDict d :: after) ->
  dict_get d "id" = None ->
  (exists e calls,
      fst (bulk_update view request kwargs w) = Raise e /\
      db (snd (bulk_update view request kwargs w)) = db w /\
      trace (snd (bulk_update view request kwargs w)) = trace w ++ calls /\
      ~ In CSave calls /\
      (Forall (lookup_succeeds view w) before -> e = KeyError "id")) /\
  (forall field url_kwarg,
      bulk_update (with_lookup view field url_kwarg) request kwargs w
      = bulk_update view request kwargs w).
Proof.
  intros Hiter Hnone. split.
  - apply (bulk_update_aborts view request kwargs w before (JDict d) after
             (KeyError "id") Hiter).
    unfold lookup_item, bind, lift. simpl. now rewrite Hnone.
  - intros field url_kwarg. apply bulk_update_ignores_lookup_field.
Qed.

Lemma bulk_update_missing_id_witness :
  (exists e calls,
      fst (bulk_update Demo.view (mkRequest (JList [Demo.item 1 "al"; Demo.no_id "bo"]))
             [] Demo.world) = Raise e /\
      db (snd (bulk_update Demo.view
                 (mkRequest (JList [Demo.item 1 "al"; Demo.no_id "bo"])) [] Demo.world))
      = Demo.table /\
      trace (snd (bulk_update Demo.view
                    (mkRequest (JList [Demo.item 1 "al"; Demo.no_id "bo"])) [] Demo.world))
      = [] ++ calls /\
      ~ In CSave calls /\
      (Forall (lookup_succeeds Demo.view Demo.world) [Demo.item 1 "al"] ->
       e = KeyError "id")) /\
  (forall field url_kwarg,
      bulk_update (with_lookup Demo.view field url_kwarg)
        (mkRequest (JList [Demo.item 1 "al"; Demo.no_id "bo"])) [] Demo.world
      = bulk_update Demo.view
          (mkRequest (JList [Demo.item 1 "al"; Demo.no_id "bo"])) [] Demo.world).
Proof.
  refine (bulk_update_missing_id Demo.view
            (mkRequest (JList [Demo.item 1 "al"; Demo.no_id "bo"])) [] Demo.world
            [Demo.item 1 "al"] [("name", JStr "bo")] [] eq_refl _).
  reflexivity.
Defined.

(** Counterexample to C10 as stated.  The second item of the batch is a
    mapping without the key 'id', yet the request ends with the not-found
    condition of the first item, whose identifier is outside the filtered
    queryset: no key-lookup error is raised. *)
Lemma bulk_update_missing_id_preempted :
  let items := [Demo.item 3 "cy"; Demo.no_id "bo"] in
  py_getitem (Demo.no_id "bo") "id" = Raise (KeyError "id") /\
  fst (bulk_update Demo.view (mkRequest (JList items)) [] Demo.world)
  = Raise Http404 /\
  forall k, fst (bulk_update Demo.view (mkRequest (JList items)) [] Demo.world)
            <> Raise (KeyError k).
Proof.
  intros items. split; [|split].
  - reflexivity.
  - vm_compute. reflexivity.
  - intros k. vm_compute. discriminate.
Qed.

(** ** The properties of bulk destroy *)

Lemma perform_destroy_run (view : View) (o : Obj) (w : World) :
  perform_destroy view o w
  = (fst (instance_delete view o (db w)),
     mkWorld (snd (instance_delete view o (db w))) (trace w ++ [CDelete o])).
Proof.
  unfold perform_destroy, bind, tell, lift_store. simpl.
  destruct (instance_delete view o (db w)) as [r st]. reflexivity.
Qed.

(** The destroy loop when every delete returns. *)
Lemma destroy_each_returns (view : View) (objs : list Obj) :
  (forall o st, In o objs -> fst (instance_delete view o st) = Return tt) ->
  forall w : World,
    destroy_each view objs w
    = (Return tt,
       mkWorld (fold_left (fun st o => snd (instance_delete view o st)) objs (db w))
         (trace w ++ map CDelete objs)).
Proof.
  induction objs as [|o objs IH]; intros Hok w.
  - simpl. unfold ret. rewrite app_nil_r. destruct w; reflexivity.
  - simpl. unfold bind. rewrite perform_destroy_run.
    rewrite (Hok o (db w) (or_introl eq_refl)).
    rewrite IH by (intros o' st Ho'; apply Hok; now right).
    simpl. rewrite <- app_assoc. reflexivity.
Qed.





(** An accepted bulk destroy is the destroy loop over the objects the
    filtered queryset selects when the loop starts. *)
Lemma bulk_destroy_accepted (view : View) (request : Request) (w : World) :
  allow_bulk_destroy (get_queryset view) (filter_queryset view (get_queryset view))
  = true ->
  bulk_destroy view request w
  = match destroy_each view
            (qs_eval (filter_queryset view (get_queryset view)) (db w)) w with
    | (Return _, w') => (Return (mkResponse None HTTP_204_NO_CONTENT []), w')
    | (Raise e, w') => (Raise e, w')
    end.
Proof.
  intros Hallow. unfold bulk_destroy. rewrite Hallow. simpl.
  unfold bind, perform_bulk_destroy.
  destruct (destroy_each view _ w) as [[u|e] w']; reflexivity.
Qed.




(** C9.  There are a base queryset and a filtered queryset that denote the
    same records of a non-empty table, the whole table, and are distinct
    objects, for which the default guard accepts and bulk destroy deletes
    every record. *)
Theorem bulk_destroy_match_all_filter :
  exists (view : View) (w : World),
    let qs := get_queryset view in
    let filtered := filter_queryset view qs in
    qs_ident qs <> qs_ident filtered /\
    (forall st, qs_eval filtered st = qs_eval qs st) /\
    qs_eval qs (db w) = db w /\
    db w <> [] /\
    allow_bulk_destroy qs filtered = true /\
    fst (bulk_destroy view (mkRequest JNull) w)
    = Return (mkResponse None HTTP_204_NO_CONTENT []) /\
    db (snd (bulk_destroy view (mkRequest JNull) w)) = [].
Proof.
  exists Demo.match_all_view, Demo.world. cbv zeta.
  split; [simpl; discriminate|]. split; [reflexivity|]. split; [reflexivity|].
  split; [discriminate|]. split; [reflexivity|].
  split; vm_compute; reflexivity.
Qed.

(** ** The properties of bulk create *)

(** C5.  For a request body that is not a list, bulk create is the
    standard single-object create: same response, same exception, same
    effect on the table and the same calls. *)
Theorem create_single_delegates (view : View) (request : Request) (w : World) :
  is_list (data request) = false ->
  create view request w = standard_single_create view request w.
Proof.
  intros Hsingle. unfold create, standard_single_create.
  rewrite Hsingle. reflexivity.
Qed.

Lemma create_single_delegates_witness :
  create Demo.view (mkRequest (Demo.no_id "dee")) Demo.world
  = standard_single_create Demo.view (mkRequest (Demo.no_id "dee")) Demo.world.
Proof.
  apply (create_single_delegates Demo.view (mkRequest (Demo.no_id "dee")) Demo.world).
  reflexivity.
Defined.

Lemma collection_errors_truthy (view : View) (st : Store) (items : list json) :
  Exists (fun item => collection_item_fails view st item = true) items ->
  existsb nonempty
    (map item_errors (map (fun item => run_validation view st None item false) items))
  = true.
Proof.
  intros HE. apply existsb_exists.
  apply Exists_exists in HE as [item [Hin Hfail]].
  exists (item_errors (run_validation view st None item false)).
  split; [|exact Hfail].
  apply in_map. apply (in_map (fun item => run_validation view st None item false)).
  exact Hin.
Qed.

(** C6.  For a list payload to create in which some item fails the
    collection-mode validation, the validation error is raised by the
    validity check itself: the table is left as it was and the only call
    made is that check, so no save is attempted and no record is
    persisted. *)
Theorem create_rejects_invalid_batch (view : View) (request : Request) (w : World)
  (items : list json) :
  data request = JList items ->
  Exists (fun item => collection_item_fails view (db w) item = true) items ->
  exists detail,
    fst (create view request w) = Raise (APIValidationError detail) /\
    db (snd (create view request w)) = db w /\
    trace (snd (create view request w)) = trace w ++ [CIsValid (JList items)] /\
    ~ In CSave [CIsValid (JList items)].
Proof.
  intros Hdata HE. unfold create. rewrite Hdata. simpl.
  unfold ListSerializer_is_valid, bind, tell, get_serializer_many. simpl.
  rewrite (collection_errors_truthy view (db w) items HE). simpl.
  assert (Hne : nonempty
                  (map item_errors
                     (map (fun item => run_validation view (db w) None item false)
                        items)) = true)
    by (destruct HE; reflexivity).
  rewrite Hne. simpl.
  eexists. split; [reflexivity|]. split; [reflexivity|]. split; [reflexivity|].
  intros [Hin|[]]. discriminate.
Qed.

Lemma create_rejects_invalid_batch_witness :
  exists detail,
    fst (create Demo.view (mkRequest (JList [Demo.no_id "dee"; Demo.no_id EmptyString]))
           Demo.world) = Raise (APIValidationError detail) /\
    db (snd (create Demo.view (mkRequest (JList [Demo.no_id "dee"; Demo.no_id EmptyString]))
               Demo.world)) = Demo.table /\
    trace (snd (create Demo.view (mkRequest (JList [Demo.no_id "dee"; Demo.no_id EmptyString]))
                  Demo.world))
    = [] ++ [CIsValid (JList [Demo.no_id "dee"; Demo.no_id EmptyString])] /\
    ~ In CSave [CIsValid (JList [Demo.no_id "dee"; Demo.no_id EmptyString])].
Proof.
  refine (create_rejects_invalid_batch Demo.view
            (mkRequest (JList [Demo.no_id "dee"; Demo.no_id EmptyString])) Demo.world
            [Demo.no_id "dee"; Demo.no_id EmptyString] eq_refl _).
  apply Exists_cons_tl, Exists_cons_hd. vm_compute. reflexivity.
Defined.

(** ** The object lookup *)

(** C8.  When the identifier keyword is not among the resolved arguments
    of the view, the lookup returns no object, raises nothing and makes no
    call; when it is, the lookup is the standard single-object lookup,
    with its result, its exceptions and its calls. *)
Theorem get_object_tolerates_missing_identifier (view : View) (w : World) :
  let key := py_or (lookup_url_kwarg view) (lookup_field view) in
  (dict_mem (kwargs view) key = false ->
   get_object view w = (Return None, w)) /\
  (dict_mem (kwargs view) key = true ->
   get_object view w
   = match GenericAPIView_get_object view w with
     | (Return o, w') => (Return (Some o), w')
     | (Raise e, w') => (Raise e, w')
     end).
Proof.
  intros key. unfold get_object. fold key. split; intros ->.
  - reflexivity.
  - unfold bind. destruct (GenericAPIView_get_object view w) as [[o|e] w'];
      reflexivity.
Qed.

Lemma get_object_tolerates_missing_identifier_witness :
  get_object Demo.view Demo.world = (Return None, Demo.world) /\
  get_object Demo.detail_view Demo.world
  = (Return (Some (Demo.row 1 "ann")), mkWorld Demo.table [CSuperGetObject]).
Proof.
  split.
  - apply (proj1 (get_object_tolerates_missing_identifier Demo.view Demo.world)).
    reflexivity.
  - apply (proj2 (get_object_tolerates_missing_identifier Demo.detail_view Demo.world)).
    reflexivity.
Defined.

(** ** Further properties of bulk update *)

(** Items with the object each one names and the data its validation
    yields: what they give the loop. *)
Lemma valid_rows_run (view : View) (w : World) (partial : bool)
  (rows : list (json * Obj * dict)) :
  Forall (fun r =>
            fst (lookup_item view (fst (fst r)) w) = Return (snd (fst r)) /\
            run_validation view (db w) (Some (snd (fst r))) (fst (fst r)) partial
            = Valid (snd r)) rows ->
  Forall (lookup_succeeds view w) (map (fun r => fst (fst r)) rows) /\
  flat_map (item_data view w partial) (map (fun r => fst (fst r)) rows)
  = map snd rows /\
  flat_map (failure_errors view w partial) (map (fun r => fst (fst r)) rows) = [].
Proof.
  induction 1 as [|[[item obj] d] rows [Hl Hv] _ [IH1 [IH2 IH3]]]; simpl in *.
  - repeat split. constructor.
  - split; [|split].
    + constructor; [now exists obj|exact IH1].
    + rewrite (item_data_checked view partial item obj w Hl), IH2.
      unfold checked. rewrite Hv. reflexivity.
    + rewrite (failure_errors_run view partial item obj w Hl), IH3.
      unfold checked. rewrite Hv. reflexivity.
Qed.

(** X1.  The success path of bulk update: when every item names an object
    of the filtered queryset and is valid against that object, the batch
    serializer is saved once, after all lookups and checks, with exactly the
    per-item validated data in batch order; the response is 200 with the
    representation of the objects the save returned, and an exception of
    the save propagates. *)
Theorem bulk_update_saves_validated (view : View) (request : Request)
  (kwargs : dict) (w : World) (rows : list (json * Obj * dict)) :
  py_iter (data request) = Return (map (fun r => fst (fst r)) rows) ->
  Forall (fun r =>
            fst (lookup_item view (fst (fst r)) w) = Return (snd (fst r)) /\
            run_validation view (db w) (Some (snd (fst r))) (fst (fst r))
              (partial_of kwargs)
            = Valid (snd r)) rows ->
  bulk_update view request kwargs w
  = match list_serializer_update view
            (Lazy (filter_queryset view (get_queryset view)))
            (map snd rows) (db w) with
    | (Return saved, db') =>
        (Return (mkResponse (Some (JList (map (to_representation view) saved)))
                   HTTP_200_OK []),
         mkWorld db'
           (trace w ++ flat_map item_calls (map (fun r => fst (fst r)) rows)
            ++ [CSave]))
    | (Raise e, db') =>
        (Raise e,
         mkWorld db'
           (trace w ++ flat_map item_calls (map (fun r => fst (fst r)) rows)
            ++ [CSave]))
    end.
Proof.
  intros Hiter Hrows.
  destruct (valid_rows_run view w (partial_of kwargs) rows Hrows) as [HF [Hd He]].
  unfold bulk_update, bind, lift. rewrite Hiter. fold (partial_of kwargs).
  rewrite (bulk_update_loop_run view (partial_of kwargs) w _ HF [] [] w eq_refl).
  cbn [app]. rewrite Hd, He. simpl.
  unfold ListSerializer_save, bind, tell, lift_store. simpl.
  destruct (list_serializer_update view _ _ _) as [[saved|e] db']; simpl.
  - now rewrite <- app_assoc.
  - now rewrite <- app_assoc.
Qed.

Lemma bulk_update_saves_validated_witness :
  bulk_update Demo.view (mkRequest (JList [Demo.item 1 "al"; Demo.item 2 "bo"])) []
    Demo.world
  = (Return (mkResponse
               (Some (JList [Demo.represent (Demo.row 1 "al");
                             Demo.represent (Demo.row 2 "bo")]))
               HTTP_200_OK []),
     mkWorld [Demo.row 1 "al"; Demo.row 2 "bo"; Demo.row 3 "cyd"]
       [CGetObjectOr404 (JNum 1); CIsValid (Demo.item 1 "al");
        CGetObjectOr404 (JNum 2); CIsValid (Demo.item 2 "bo"); CSave]).
Proof.
  refine (eq_trans
            (bulk_update_saves_validated Demo.view
               (mkRequest (JList [Demo.item 1 "al"; Demo.item 2 "bo"])) [] Demo.world
               [(Demo.item 1 "al", Demo.row 1 "ann", [("name", JStr "al")]);
                (Demo.item 2 "bo", Demo.row 2 "bob", [("name", JStr "bo")])]
               eq_refl _) _).
  - repeat constructor.
  - vm_compute. reflexivity.
Defined.

Lemma bulk_update_partial_only (view : View) (request : Request)
  (kwargs kwargs' : dict) (w : World) :
  partial_of kwargs = partial_of kwargs' ->
  bulk_update view request kwargs w = bulk_update view request kwargs' w.
Proof.
  intros Hp. unfold bulk_update.
  change (truthy (dict_pop kwargs "partial" (JBool false))) with (partial_of kwargs).
  change (truthy (dict_pop kwargs' "partial" (JBool false))) with (partial_of kwargs').
  rewrite Hp. reflexivity.
Qed.

(** X2.  A partial bulk update runs the bulk update with the partial flag
    set, whatever the keyword arguments it was called with: a [partial]
    the caller passed, false included, is overridden, and two calls that
    differ in their keyword arguments only behave alike. *)
Theorem partial_bulk_update_forces_partial (view : View) (request : Request)
  (kwargs kwargs' : dict) (w : World) :
  partial_bulk_update view request kwargs w
  = bulk_update view request [("partial", JBool true)] w /\
  partial_bulk_update view request kwargs w
  = partial_bulk_update view request kwargs' w.
Proof.
  split; unfold partial_bulk_update; apply bulk_update_partial_only; reflexivity.
Qed.

(** X3.  A bulk update whose body is not iterable (null, a boolean, a
    number) raises a type error at once: no lookup, no validity check, no
    save, and the table is left as it was. *)
Theorem bulk_update_not_iterable (view : View) (request : Request) (kwargs : dict)
  (w : World) :
  data request = JNull \/ (exists b, data request = JBool b)
  \/ (exists n, data request = JNum n) ->
  bulk_update view request kwargs w = (Raise TypeError, w).
Proof.
  intros [H|[[b H]|[n H]]]; unfold bulk_update, bind, lift; rewrite H; reflexivity.
Qed.

Lemma bulk_update_not_iterable_witness :
  bulk_update Demo.view (mkRequest (JNum 7)) [] Demo.world
  = (Raise TypeError, Demo.world).
Proof.
  apply (bulk_update_not_iterable Demo.view (mkRequest (JNum 7)) [] Demo.world).
  right. right. now exists 7%Z.
Defined.

(** X4.  A bulk update whose body is a single non-empty mapping, not a
    list, iterates over its keys: the first key is a string, subscripting
    it raises a type error, and the request ends there with no lookup, no
    validity check and no save. *)
Theorem bulk_update_single_mapping (view : View) (request : Request) (kwargs : dict)
  (w : World) (k : string) (x : json) (d : dict) :
  data request = JDict ((k, x) :: d) ->
  bulk_update view request kwargs w = (Raise TypeError, w).
Proof.
  intros H. unfold bulk_update, bind, lift. rewrite H. reflexivity.
Qed.

Lemma bulk_update_single_mapping_witness :
  bulk_update Demo.view (mkRequest (Demo.item 1 "al")) [] Demo.world
  = (Raise TypeError, Demo.world).
Proof.
  apply (bulk_update_single_mapping Demo.view (mkRequest (Demo.item 1 "al")) []
           Demo.world "id" (JNum 1) [("name", JStr "al")]).
  reflexivity.
Defined.

(** X5.  A bulk update of an empty batch makes no lookup and no validity
    check and still saves: the batch serializer is saved with an empty list
    of validated data, and the response is 200 with whatever that save
    returned. *)
Theorem bulk_update_empty_batch (view : View) (request : Request) (kwargs : dict)
  (w : World) :
  py_iter (data request) = Return [] ->
  bulk_update view request kwargs w
  = match list_serializer_update view
            (Lazy (filter_queryset view (get_queryset view))) [] (db w) with
    | (Return saved, db') =>
        (Return (mkResponse (Some (JList (map (to_representation view) saved)))
                   HTTP_200_OK []),
         mkWorld db' (trace w ++ [CSave]))
    | (Raise e, db') => (Raise e, mkWorld db' (trace w ++ [CSave]))
    end.
Proof.
  intros Hiter. unfold bulk_update, bind, lift. rewrite Hiter. simpl.
  unfold ListSerializer_save, bind, tell, lift_store. simpl.
  destruct (list_serializer_update view _ _ _) as [[saved|e] db']; reflexivity.
Qed.

Lemma bulk_update_empty_batch_witness :
  bulk_update Demo.view (mkRequest (JList [])) [] Demo.world
  = (Return (mkResponse (Some (JList [])) HTTP_200_OK []),
     mkWorld Demo.table [CSave]).
Proof.
  refine (eq_trans
            (bulk_update_empty_batch Demo.view (mkRequest (JList [])) [] Demo.world
               eq_refl) _).
  vm_compute. reflexivity.
Defined.

(** X6.  A bulk update batch with an item that is not a mapping (a number,
    a string, a list, null) is aborted by an exception before any save, the
    table left as it was; the exception is the type error of subscripting
    that item whenever the lookups of the items before it succeed. *)
Theorem bulk_update_item_not_mapping (view : View) (request : Request)
  (kwargs : dict) (w : World) (before : list json) (item : json)
  (after : list json) :
  py_iter (data request) = Return (before ++ item :: after) ->
  is_dict item = false ->
  exists e calls,
    fst (bulk_update view request kwargs w) = Raise e /\
    db (snd (bulk_update view request kwargs w)) = db w /\
    trace (snd (bulk_update view request kwargs w)) = trace w ++ calls /\
    ~ In CSave calls /\
    (Forall (lookup_succeeds view w) before -> e = TypeError).
Proof.
  intros Hiter Hnd.
  apply (bulk_update_aborts view request kwargs w before item after TypeError Hiter).
  unfold lookup_item, bind, lift. destruct item; try reflexivity. discriminate.
Qed.

Lemma bulk_update_item_not_mapping_witness :
  exists e calls,
    fst (bulk_update Demo.view (mkRequest (JList [Demo.item 1 "al"; JNum 2]))
           [] Demo.world) = Raise e /\
    db (snd (bulk_update Demo.view (mkRequest (JList [Demo.item 1 "al"; JNum 2]))
               [] Demo.world)) = Demo.table /\
    trace (snd (bulk_update Demo.view (mkRequest (JList [Demo.item 1 "al"; JNum 2]))
                  [] Demo.world)) = [] ++ calls /\
    ~ In CSave calls /\
    (Forall (lookup_succeeds Demo.view Demo.world) [Demo.item 1 "al"] ->
     e = TypeError).
Proof.
  refine (bulk_update_item_not_mapping Demo.view
            (mkRequest (JList [Demo.item 1 "al"; JNum 2])) [] Demo.world
            [Demo.item 1 "al"] (JNum 2) [] eq_refl _).
  reflexivity.
Defined.

(** X7.  The update is restricted to the filtered queryset: an item whose
    identifier is the primary key of no object that passes the view's
    filter, be there such a record in the table or not, aborts the request
    before any save with the table left as it was, with the not-found
    condition whenever the lookups of the items before it succeed. *)
Theorem bulk_update_outside_filter (view : View) (request : Request)
  (kwargs : dict) (w : World) (before : list json) (item : json)
  (after : list json) (ident : json) (k : Z) :
  py_iter (data request) = Return (before ++ item :: after) ->
  py_getitem item "id" = Return ident ->
  pk_to_python view ident = Some k ->
  (forall o, In o (db w) -> pk o = k ->
             qs_where (filter_queryset view (get_queryset view)) o = false) ->
  exists e calls,
    fst (bulk_update view request kwargs w) = Raise e /\
    db (snd (bulk_update view request kwargs w)) = db w /\
    trace (snd (bulk_update view request kwargs w)) = trace w ++ calls /\
    ~ In CSave calls /\
    (Forall (lookup_succeeds view w) before -> e = Http404).
Proof.
  intros Hiter Hid Hpk Hout.
  apply (bulk_update_aborts view request kwargs w before item after Http404 Hiter).
  unfold lookup_item, bind, lift. rewrite Hid.
  unfold get_object_or_404, bind, tell. simpl. rewrite Hpk.
  destruct (filter (fun o => Z.eqb (pk o) k)
              (qs_eval (filter_queryset view (get_queryset view)) (db w)))
    as [|o l] eqn:Hf; [reflexivity|].
  assert (Hin : In o (filter (fun o => Z.eqb (pk o) k)
                        (qs_eval (filter_queryset view (get_queryset view)) (db w))))
    by (rewrite Hf; now left).
  apply filter_In in Hin as [Hin Hk]. unfold qs_eval in Hin.
  apply filter_In in Hin as [Hin Hw]. apply Z.eqb_eq in Hk.
  rewrite (Hout o Hin Hk) in Hw. discriminate.
Qed.

Lemma bulk_update_outside_filter_witness :
  exists e calls,
    fst (bulk_update Demo.view (mkRequest (JList [Demo.item 3 "cy"])) [] Demo.world)
    = Raise e /\
    db (snd (bulk_update Demo.view (mkRequest (JList [Demo.item 3 "cy"])) []
               Demo.world)) = Demo.table /\
    trace (snd (bulk_update Demo.view (mkRequest (JList [Demo.item 3 "cy"])) []
                  Demo.world)) = [] ++ calls /\
    ~ In CSave calls /\
    (Forall (lookup_succeeds Demo.view Demo.world) [] -> e = Http404).
Proof.
  refine (bulk_update_outside_filter Demo.view
            (mkRequest (JList [Demo.item 3 "cy"])) [] Demo.world
            [] (Demo.item 3 "cy") [] (JNum 3) 3 eq_refl eq_refl eq_refl _).
  intros o [<-|[<-|[<-|[]]]]; simpl; intros Hk; try discriminate. reflexivity.
Defined.

(** Whatever the batch, the loop only reads: its calls are lookups and
    validity checks, and the table stays as it was. *)
Lemma bulk_update_loop_reads (view : View) (partial : bool) (items : list json) :
  forall (vd : list dict) (ve : list errors) (w : World),
    db (snd (bulk_update_loop view partial items vd ve w)) = db w /\
    exists calls,
      trace (snd (bulk_update_loop view partial items vd ve w)) = trace w ++ calls /\
      forallb read_call calls = true.
Proof.
  induction items as [|item rest IH]; intros vd ve w.
  - simpl. split; [reflexivity|]. exists []. now rewrite app_nil_r.
  - destruct (fst (lookup_item view item w)) as [obj|e] eqn:Hl.
    + rewrite (bulk_update_loop_step view partial item rest vd ve obj w Hl).
      match goal with |- context [bulk_update_loop view partial rest ?a ?b ?c] =>
        destruct (IH a b c) as [Hdb [calls [Ht Hr]]] end.
      split; [exact Hdb|]. exists (item_calls item ++ calls).
      rewrite Ht. simpl. rewrite app_assoc. split; [reflexivity|].
      rewrite forallb_app, Hr, andb_true_r. unfold item_calls.
      destruct (py_getitem item "id"); reflexivity.
    + rewrite (bulk_update_loop_raise view partial item rest vd ve e w Hl). simpl.
      rewrite lookup_item_world. simpl. split; [reflexivity|].
      eexists. split; [reflexivity|].
      destruct (py_getitem item "id"); reflexivity.
Qed.

(** X8.  Whatever the request, the calls of a bulk update are lookups and
    validity checks, followed by at most one save, which is then the last
    call; and unless that save is reached, the table is left exactly as it
    was.  In particular a bulk update never deletes. *)
Theorem bulk_update_writes_only_by_save (view : View) (request : Request)
  (kwargs : dict) (w : World) :
  exists reads last,
    trace (snd (bulk_update view request kwargs w)) = trace w ++ reads ++ last /\
    forallb read_call reads = true /\
    ((last = [] /\ db (snd (bulk_update view request kwargs w)) = db w)
     \/ last = [CSave]).
Proof.
  unfold bulk_update, bind, lift. fold (partial_of kwargs).
  destruct (py_iter (data request)) as [items|e].
  - destruct (bulk_update_loop_reads view (partial_of kwargs) items [] [] w)
      as [Hdb [calls [Ht Hr]]].
    destruct (bulk_update_loop view (partial_of kwargs) items [] [] w)
      as [[[vd ve]|e] w1]; simpl in *.
    + destruct (nonempty ve).
      * exists calls, []. simpl. rewrite app_nil_r. auto.
      * exists calls, [CSave]. split; [|auto].
        unfold ListSerializer_save, bind, tell, lift_store. simpl.
        destruct (list_serializer_update view _ _ _) as [[saved|e] db']; simpl;
          now rewrite Ht, <- app_assoc.
    + exists calls, []. simpl. rewrite app_nil_r. auto.
  - exists [], []. simpl. rewrite app_nil_r. auto.
Qed.

(** ** Further properties of bulk destroy *)

Lemma unique_pk (st : Store) :
  NoDup (map pk st) ->
  forall x y, In x st -> In y st -> pk x = pk y -> x = y.
Proof.
  induction st as [|a st IH]; intros Hnd x y Hx Hy Hpk; [contradiction|].
  simpl in Hnd. inversion Hnd as [|? ? Hnotin Hnd']; subst.
  destruct Hx as [<-|Hx], Hy as [<-|Hy]; auto.
  - exfalso. apply Hnotin. rewrite Hpk. now apply in_map.
  - exfalso. apply Hnotin. rewrite <- Hpk. now apply in_map.
Qed.

(** What is left after plain row deletes of [objs]: rows that were there,
    with none of the deleted primary keys. *)
Lemma delete_all_left (objs : list Obj) :
  forall (st : Store) (x : Obj),
    In x (fold_left (fun st o => delete o st) objs st) <->
    In x st /\ forall o, In o objs -> pk x <> pk o.
Proof.
  induction objs as [|o objs IH]; intros st x; simpl.
  - tauto.
  - rewrite IH. unfold delete. rewrite filter_In, negb_true_iff, Z.eqb_neq.
    split.
    + intros [[Hin Hne] Hall]. split; [exact Hin|].
      intros o' [<-|Ho']; auto.
    + intros [Hin Hall]. auto.
Qed.

(** With unique primary keys, plain row deletes of the objects a predicate
    selects leave exactly the rows the predicate does not select. *)
Lemma delete_selected (p : Obj -> bool) (st : Store) :
  NoDup (map pk st) ->
  forall x, In x (fold_left (fun st o => delete o st) (filter p st) st) <->
            In x (filter (fun o => negb (p o)) st).
Proof.
  intros Hnd x. rewrite delete_all_left, filter_In, negb_true_iff. split.
  - intros [Hin Hne]. split; [exact Hin|].
    destruct (p x) eqn:Hp; [|reflexivity].
    exfalso. apply (Hne x); [|reflexivity]. apply filter_In. auto.
  - intros [Hin Hp]. split; [exact Hin|].
    intros o Ho Hpk. apply filter_In in Ho as [Ho Hpo].
    rewrite (unique_pk st Hnd x o Hin Ho Hpk) in Hp. congruence.
Qed.

Lemma plain_deletes (view : View) (objs : list Obj) :
  (forall o st, instance_delete view o st = (Return tt, delete o st)) ->
  forall st,
    fold_left (fun st o => snd (instance_delete view o st)) objs st
    = fold_left (fun st o => delete o st) objs st.
Proof.
  intros Hplain. induction objs as [|o objs IH]; intros st; [reflexivity|].
  simpl. rewrite Hplain. simpl. apply IH.
Qed.

(** X9.  For a model whose delete always returns and removes the rows
    with the primary key of the instance and nothing else, a table with
    unique primary keys and an accepting guard, bulk destroy deletes
    exactly the objects of the filtered queryset: a row is left in the
    table if and only if it was there and the filter does not select it. *)
Theorem bulk_destroy_deletes_exactly (view : View) (request : Request) (w : World) :
  (forall o st, instance_delete view o st = (Return tt, delete o st)) ->
  NoDup (map pk (db w)) ->
  allow_bulk_destroy (get_queryset view) (filter_queryset view (get_queryset view))
  = true ->
  forall x,
    In x (db (snd (bulk_destroy view request w))) <->
    In x (db w) /\
    qs_where (filter_queryset view (get_queryset view)) x = false.
Proof.
  intros Hplain Hnd Haccept x.
  rewrite (bulk_destroy_accepted view request w Haccept).
  rewrite (destroy_each_returns view _
             (fun o st _ => f_equal fst (Hplain o st)) w). simpl.
  rewrite (plain_deletes view _ Hplain). unfold qs_eval.
  rewrite (delete_selected _ (db w) Hnd x), filter_In, negb_true_iff. tauto.
Qed.

Lemma bulk_destroy_deletes_exactly_witness :
  In (Demo.row 3 "cyd")
    (db (snd (bulk_destroy Demo.view (mkRequest JNull) Demo.world))) <->
  In (Demo.row 3 "cyd") Demo.table /\
  qs_where (filter_queryset Demo.view (get_queryset Demo.view)) (Demo.row 3 "cyd")
  = false.
Proof.
  apply (bulk_destroy_deletes_exactly Demo.view (mkRequest JNull) Demo.world).
  - intros o st. reflexivity.
  - simpl. repeat constructor; simpl; intuition discriminate.
  - reflexivity.
Defined.

(** X10.  When the guard accepts and the filter selects no record, bulk
    destroy answers no-content and does nothing: no destroy call is made
    and the table is left as it was. *)
Theorem bulk_destroy_empty_selection (view : View) (request : Request) (w : World) :
  allow_bulk_destroy (get_queryset view) (filter_queryset view (get_queryset view))
  = true ->
  qs_eval (filter_queryset view (get_queryset view)) (db w) = [] ->
  bulk_destroy view request w
  = (Return (mkResponse None HTTP_204_NO_CONTENT []), w).
Proof.
  intros Haccept Hempty.
  rewrite (bulk_destroy_accepted view request w Haccept), Hempty. reflexivity.
Qed.

Lemma bulk_destroy_empty_selection_witness :
  bulk_destroy Demo.view (mkRequest JNull) (mkWorld [Demo.row 3 "cyd"] [])
  = (Return (mkResponse None HTTP_204_NO_CONTENT []),
     mkWorld [Demo.row 3 "cyd"] []).
Proof.
  apply (bulk_destroy_empty_selection Demo.view (mkRequest JNull)
           (mkWorld [Demo.row 3 "cyd"] [])); reflexivity.
Defined.

(** ** Further properties of bulk create *)

Lemma for_each_length {A B : Type} (f : A -> M B) (l : list A) :
  forall (w w' : World) (ys : list B),
    for_each f l w = (Return ys, w') -> List.length ys = List.length l.
Proof.
  induction l as [|x l IH]; intros w w' ys; simpl.
  - unfold ret. now intros [= <- _].
  - unfold bind. destruct (f x w) as [[y|e] w1]; [|discriminate].
    destruct (for_each f l w1) as [[ys'|e] w2] eqn:Hrest; [|discriminate].
    unfold ret. intros [= <- _]. simpl. f_equal. exact (IH w1 w2 ys' Hrest).
Qed.

Lemma all_valid_run (view : View) (st : Store) (items : list json) (ds : list dict) :
  Forall2 (fun item d => run_validation view st None item false = Valid d) items ds ->
  ListSerializer_to_internal_value view st false (JList items) = inr ds.
Proof.
  intros HF. unfold ListSerializer_to_internal_value.
  assert (Hmap : map (fun item => run_validation view st None item false) items
                 = map Valid ds).
  { induction HF as [|item d items ds Hv _ IH]; [reflexivity|].
    simpl. now rewrite Hv, IH. }
  rewrite Hmap. clear HF Hmap.
  assert (He : existsb nonempty (map item_errors (map Valid ds)) = false)
    by (induction ds as [|d ds IH]; [reflexivity|exact IH]).
  rewrite He. f_equal.
  induction ds as [|d ds IH]; [reflexivity|]. simpl. now rewrite IH.
Qed.

(** X12.  Bulk create of a list whose items are all valid: after the one
    validity check, the save creates the validated items one by one in
    list order; when every create returns, the response is 201 with one
    representation per item of the list, in order, and without headers;
    an exception of a create propagates, with the items created before it
    left in the table. *)
Theorem create_list_creates_each (view : View) (request : Request) (w : World)
  (items : list json) (ds : list dict) :
  data request = JList items ->
  Forall2 (fun item d => run_validation view (db w) None item false = Valid d)
    items ds ->
  create view request w
  = match for_each (fun d => lift_store (serializer_create view d)) ds
            (mkWorld (db w) (trace w ++ [CIsValid (JList items); CSave])) with
    | (Return objs, w') =>
        (Return (mkResponse (Some (JList (map (to_representation view) objs)))
                   HTTP_201_CREATED []), w')
    | (Raise e, w') => (Raise e, w')
    end /\
  (forall r, fst (create view request w) = Return r ->
             exists objs,
               r = mkResponse (Some (JList (map (to_representation view) objs)))
                     HTTP_201_CREATED [] /\
               List.length objs = List.length items).
Proof.
  intros Hdata HF.
  assert (Hrun :
    create view request w
    = match for_each (fun d => lift_store (serializer_create view d)) ds
              (mkWorld (db w) (trace w ++ [CIsValid (JList items); CSave])) with
      | (Return objs, w') =>
          (Return (mkResponse (Some (JList (map (to_representation view) objs)))
                     HTTP_201_CREATED []), w')
      | (Raise e, w') => (Raise e, w')
      end).
  { unfold create. rewrite Hdata.
    cbn -[ListSerializer_to_internal_value for_each].
    unfold ListSerializer_is_valid, bind, tell, get_serializer_many.
    cbn -[ListSerializer_to_internal_value for_each].
    rewrite (all_valid_run view (db w) items ds HF).
    cbn -[for_each].
    unfold ListSerializer_save, bind, tell. cbn -[for_each].
    unfold log. cbn -[for_each]. rewrite <- app_assoc. cbn -[for_each].
    destruct (for_each _ ds _) as [[objs|e] w']; reflexivity. }
  split; [exact Hrun|].
  intros r Hr. rewrite Hrun in Hr.
  destruct (for_each _ ds _) as [[objs|e] w'] eqn:Hfe; simpl in Hr; [|discriminate].
  injection Hr as <-. exists objs. split; [reflexivity|].
  rewrite (for_each_length _ ds _ w' objs Hfe).
  symmetry. exact (Forall2_length HF).
Qed.

Lemma create_list_creates_each_witness :
  fst (create Demo.view (mkRequest (JList [Demo.no_id "dee"; Demo.no_id "eve"]))
         Demo.world)
  = Return (mkResponse
              (Some (JList [Demo.represent (Demo.row 4 "dee");
                            Demo.represent (Demo.row 5 "eve")]))
              HTTP_201_CREATED []).
Proof.
  refine (eq_trans
            (f_equal fst
               (proj1 (create_list_creates_each Demo.view
                         (mkRequest (JList [Demo.no_id "dee"; Demo.no_id "eve"]))
                         Demo.world [Demo.no_id "dee"; Demo.no_id "eve"]
                         [[("name", JStr "dee")]; [("name", JStr "eve")]]
                         eq_refl _))) _).
  - repeat constructor.
  - vm_compute. reflexivity.
Defined.

(** ** Further properties of the object lookup *)

(** X13.  The lookup keys on [lookup_url_kwarg] when the view sets it to a
    non-empty name, and only then: if that name is not among the resolved
    arguments the lookup returns no object and makes no call, even when an
    identifier is there under the name of [lookup_field]. *)
Theorem get_object_url_kwarg_first (view : View) (w : World) (k : string) :
  lookup_url_kwarg view = Some k ->
  k <> EmptyString ->
  dict_mem (kwargs view) k = false ->
  get_object view w = (Return None, w).
Proof.
  intros Hk Hne Hmem. unfold get_object, py_or. rewrite Hk.
  destruct (String.eqb k EmptyString) eqn:He.
  - apply String.eqb_eq in He. contradiction.
  - rewrite Hmem. reflexivity.
Qed.

Lemma get_object_url_kwarg_first_witness :
  dict_mem (kwargs (with_lookup Demo.detail_view "pk" (Some "uuid"))) "pk" = true /\
  get_object (with_lookup Demo.detail_view "pk" (Some "uuid")) Demo.world
  = (Return None, Demo.world).
Proof.
  split; [reflexivity|].
  apply (get_object_url_kwarg_first (with_lookup Demo.detail_view "pk" (Some "uuid"))
           Demo.world "uuid"); [reflexivity|discriminate|reflexivity].
Defined.
